(** * Bastar Police crime dashboard: filter and derived-metrics pipeline

    A shallow embedding of the data pipeline of [app.py]: the FIR search,
    the two "terminal" query buttons, the standard filter, the lag means,
    the monthly trend table, the season table and the map-marker loop.

    Conventions of the embedding.
    - A data-frame is a [list CrimeRecord]; a column is a projection; a null cell
      (NaN / NaT / None) is [None].
    - A pandas [Timestamp] is its number of nanoseconds since the epoch, a
      [Timedelta] its number of nanoseconds; [.dt.days] is the floor
      division by one day.
    - Strings are byte strings; case folding is the ASCII one. *)

From Stdlib Require Import ZArith List String Ascii Bool Lia QArith Qcanon.
From Stdlib Require Import OrdersEx Sorted DecimalString.
From stdpp Require Import gmap strings.

Local Open Scope Z_scope.

(** ** Timestamps and the proleptic Gregorian calendar *)

Module Calendar.

Definition Timestamp := Z.
Definition Timedelta := Z.

Definition NS_PER_DAY : Z := 86400000000000.

(** [pd.to_timedelta(n, unit='d')] *)
Definition to_timedelta_days (n : Z) : Timedelta := n * NS_PER_DAY.

(** [Timedelta.days]: whole days, rounded towards minus infinity. *)
Definition td_days (td : Timedelta) : Z := td / NS_PER_DAY.

(** Day number (days since 1970-01-01) of a civil date. *)
Definition days_from_civil (y m d : Z) : Z :=
  let y' := if m <=? 2 then y - 1 else y in
  let era := y' / 400 in
  let yoe := y' - era * 400 in
  let mp := (m + 9) mod 12 in
  let doy := (153 * mp + 2) / 5 + d - 1 in
  let doe := yoe * 365 + yoe / 4 - yoe / 100 + doy in
  era * 146097 + doe - 719468.

(** Year-of-era and day-of-year of a day-of-era in a 400-year cycle. *)
Definition yoe_of_doe (doe : Z) : Z :=
  (doe - doe / 1460 + doe / 36524 - doe / 146096) / 365.

Definition doy_of_doe (doe : Z) : Z :=
  let yoe := yoe_of_doe doe in
  doe - (365 * yoe + yoe / 4 - yoe / 100).

(** Civil date [(year, month, day)] of a day number. *)
Definition civil_from_days (z : Z) : Z * Z * Z :=
  let z' := z + 719468 in
  let era := z' / 146097 in
  let doe := z' - era * 146097 in
  let yoe := yoe_of_doe doe in
  let doy := doy_of_doe doe in
  let mp := (5 * doy + 2) / 153 in
  let d := doy - (153 * mp + 2) / 5 + 1 in
  let m := if mp <? 10 then mp + 3 else mp - 9 in
  let y := yoe + era * 400 in
  ((if m <=? 2 then y + 1 else y), m, d).

(** [pd.to_datetime(date)]: midnight of a calendar date. *)
Definition to_datetime (y m d : Z) : Timestamp :=
  days_from_civil y m d * NS_PER_DAY.

(** A timestamp with a time of day. *)
Definition datetime (y m d hh mm : Z) : Timestamp :=
  to_datetime y m d + (hh * 3600 + mm * 60) * 1000000000.

Definition ts_day (t : Timestamp) : Z := t / NS_PER_DAY.

Definition year_of (t : Timestamp) : Z :=
  let '(y, _, _) := civil_from_days (ts_day t) in y.

(** [.dt.month] *)
Definition month_of (t : Timestamp) : Z :=
  let '(_, m, _) := civil_from_days (ts_day t) in m.

(** The range of [datetime64[ns]]: a signed 64-bit count of nanoseconds. *)
Definition in_bounds (t : Timestamp) : Prop :=
  - 2 ^ 63 < t < 2 ^ 63.

End Calendar.

Import Calendar.

(** ** Element-wise pandas operations on nullable cells *)

Module Pandas.

(** ASCII case folding of one character ([str.lower]). *)
Definition lower_char (c : ascii) : ascii :=
  let n := N_of_ascii c in
  if ((65 <=? n) && (n <=? 90))%N then ascii_of_N (n + 32) else c.

Fixpoint lower (s : string) : string :=
  match s with
  | EmptyString => EmptyString
  | String c s' => String (lower_char c) (lower s')
  end.

(** [Series.astype(str)]: every cell becomes a string; a null cell becomes
    the three-letter string produced by [str(float('nan'))]. *)
Definition astype_str (v : option string) : option string :=
  match v with
  | Some s => Some s
  | None => Some "nan"%string
  end.

(** [Series.str.lower()] keeps nulls. *)
Definition str_lower (v : option string) : option string :=
  option_map lower v.

(** [series != 'text'] : a null cell differs from everything. *)
Definition ne_str (v : option string) (s : string) : bool :=
  match v with
  | Some x => negb (String.eqb x s)
  | None => true
  end.

(** [series.eq('text')] : a null cell equals nothing. *)
Definition eq_str (v : option string) (s : string) : bool :=
  match v with
  | Some x => String.eqb x s
  | None => false
  end.

(** [re.match] of a metacharacter-free pattern under [re.IGNORECASE]. *)
Fixpoint match_here (pat s : string) : bool :=
  match pat with
  | EmptyString => true
  | String p pat' =>
      match s with
      | EmptyString => false
      | String c s' =>
          Ascii.eqb (lower_char p) (lower_char c) && match_here pat' s'
      end
  end.

(** [re.search]: try every start position, left to right. *)
Fixpoint re_search (pat s : string) : bool :=
  match_here pat s ||
  match s with
  | EmptyString => false
  | String _ s' => re_search pat s'
  end.

(** [Series.str.contains(pat, case=False, na=False)].  The pattern is a
    regular expression; the embedding covers the patterns without
    metacharacters, which match themselves. *)
Definition str_contains (pat : string) (v : option string) : bool :=
  match v with
  | Some s => re_search pat s
  | None => false
  end.

Definition is_meta (c : ascii) : bool :=
  existsb (Ascii.eqb c)
    (list_ascii_of_string ".^$*+?{}[]\|()").

Definition literal_pattern (pat : string) : bool :=
  forallb (fun c => negb (is_meta c)) (list_ascii_of_string pat).

(** Comparisons of a nullable number with a constant: false on null. *)
Definition le_na (v : option Z) (k : Z) : bool :=
  match v with Some x => x <=? k | None => false end.
Definition ge_na (v : option Z) (k : Z) : bool :=
  match v with Some x => x >=? k | None => false end.
Definition gt_na (v : option Z) (k : Z) : bool :=
  match v with Some x => x >? k | None => false end.

(** Datetime arithmetic, cell by cell; [NaT] is absorbing.  These give the
    value of a cell; a column operation also checks that every cell it
    produces is a signed 64-bit count of nanoseconds, see [col_ok]. *)
Definition ts_add (t : option Timestamp) (d : Timedelta) : option Timestamp :=
  option_map (fun x => x + d) t.
Definition ts_sub (a b : option Timestamp) : option Timedelta :=
  match a, b with
  | Some x, Some y => Some (x - y)
  | _, _ => None
  end.
Definition dt_days (d : option Timedelta) : option Z :=
  option_map td_days d.

(** [series >= ts], [series <= ts]: false on [NaT]. *)
Definition ts_ge (t : option Timestamp) (b : Timestamp) : bool :=
  match t with Some x => x >=? b | None => false end.
Definition ts_le (t : option Timestamp) (b : Timestamp) : bool :=
  match t with Some x => x <=? b | None => false end.

(** [series.isin(values)] for a list of strings. *)
Definition isin (v : option string) (values : list string) : bool :=
  match v with
  | Some s => existsb (String.eqb s) values
  | None => false
  end.

(** [series.dropna().unique().tolist()]: distinct non-null values in order
    of first appearance. *)
Fixpoint unique_from (seen : list string) (col : list (option string))
  : list string :=
  match col with
  | [] => []
  | None :: col' => unique_from seen col'
  | Some s :: col' =>
      if existsb (String.eqb s) seen then unique_from seen col'
      else s :: unique_from (s :: seen) col'
  end.
Definition dropna_unique (col : list (option string)) : list string :=
  unique_from [] col.

(** [series.mean()] with the default [skipna=True]: nulls are filled with
    zero for the sum and left out of the count; an empty count gives NaN.
    The quotient is kept exact. *)
Definition nansum (col : list (option Z)) : Z :=
  fold_right (fun v acc => match v with Some x => x + acc | None => acc end) 0 col.
Definition count_notnull {A} (col : list (option A)) : nat :=
  List.length (List.filter (fun v => match v with Some _ => true | None => false end) col).
Definition mean (col : list (option Z)) : option Qc :=
  let c := count_notnull col in
  if Nat.eqb c 0 then None
  else Some (Q2Qc (inject_Z (nansum col)) / Q2Qc (inject_Z (Z.of_nat c)))%Qc.

(** [series.value_counts()]: occurrences of each non-null value.  The row
    order of the resulting table is not part of the embedding. *)
Definition bump (k : string) (m : gmap string nat) : gmap string nat :=
  <[k := S (default 0%nat (m !! k))]> m.
Definition value_counts (col : list (option string)) : gmap string nat :=
  fold_right (fun v m => match v with Some k => bump k m | None => m end) ∅ col.

End Pandas.

Import Pandas.

(** ** The data-frame *)

Record CrimeRecord := {
  case_id : option string;
  fir_number : option string;
  police_station : option string;
  crime_type : option string;
  date_reported : option Timestamp;
  arrest_date : option Timestamp;
  chargesheet_date : option Timestamp;
  accused_arrested : option string;
  chargesheet_filed : option string;
  status : option string;
  location : option string
}.

Definition DataFrame := list CrimeRecord.

(** A [datetime.date] as returned by the date-range widget. *)
Record Date := { d_year : Z; d_month : Z; d_day : Z }.

Definition pd_to_datetime (d : Date) : Timestamp :=
  to_datetime (d_year d) (d_month d) (d_day d).

(** ** Sidebar state (app.py, lines 53-72) *)

Record Sidebar := {
  date_range : Date * Date;
  selected_stations : list string;
  selected_crimes : list string;
  search_fir : string;
  show_due : bool;
  show_unarrested : bool
}.

(** Options offered by the two multiselects, which are also their defaults. *)
Definition stations (df : DataFrame) : list string :=
  dropna_unique (map police_station df).
Definition crime_types (df : DataFrame) : list string :=
  dropna_unique (map crime_type df).

(** ** FIR search (lines 74-78) *)

Definition search_mask (q : string) (r : CrimeRecord) : bool :=
  str_contains q (astype_str (fir_number r)).

Definition search_result (df : DataFrame) (q : string) : DataFrame :=
  List.filter (search_mask q) df.

(** ** Chargesheet due soon (lines 80-94) *)

Definition cs_due (r : CrimeRecord) : option Timestamp :=
  ts_add (date_reported r) (to_timedelta_days 60).

Definition days_left (today : Timestamp) (r : CrimeRecord) : option Z :=
  dt_days (ts_sub (cs_due r) (Some today)).

Definition due_mask (today : Timestamp) (r : CrimeRecord) : bool :=
  ne_str (str_lower (astype_str (chargesheet_filed r))) "yes"
  && le_na (days_left today r) 10
  && ge_na (days_left today r) 0.

Definition due_soon_df (df : DataFrame) (today : Timestamp) : DataFrame :=
  List.filter (due_mask today) df.

(** ** Accused not arrested beyond 45 days (lines 96-111) *)

Definition unarrested_days (today : Timestamp) (r : CrimeRecord) : option Z :=
  dt_days (ts_sub (Some today) (date_reported r)).

Definition unarrested_mask (today : Timestamp) (r : CrimeRecord) : bool :=
  ne_str (str_lower (astype_str (accused_arrested r))) "yes"
  && gt_na (unarrested_days today r) 45.

Definition unarrested_df (df : DataFrame) (today : Timestamp) : DataFrame :=
  List.filter (unarrested_mask today) df.

(** ** Checked datetime columns *)

(** A [datetime64[ns]] or [timedelta64[ns]] cell is a signed 64-bit count of
    nanoseconds, whose least value stands for NaT. *)
Definition int64_ok (x : Z) : bool := (- 2 ^ 63 <? x) && (x <? 2 ^ 63).

Definition cell_ok (v : option Z) : bool :=
  match v with
  | Some x => int64_ok x
  | None => true
  end.

(** A datetime column operation raises [OverflowError] as soon as one of
    its cells leaves the range; no column is produced then. *)
Definition col_ok (col : list (option Z)) : bool := forallb cell_ok col.

(** Lines 82-85 as they run: [today] becomes a Timestamp, the due dates and
    then the days left are computed for the whole frame, and only then the
    mask is applied.  [None] is the raised error: nothing is listed. *)
Definition due_soon_view (df : DataFrame) (today : Timestamp)
  : option DataFrame :=
  if int64_ok today
     && col_ok (map cs_due df)
     && col_ok (map (fun r => ts_sub (cs_due r) (Some today)) df)
  then Some (due_soon_df df today)
  else None.

(** Lines 98-102 as they run. *)
Definition unarrested_view (df : DataFrame) (today : Timestamp)
  : option DataFrame :=
  if int64_ok today
     && col_ok (map (fun r => ts_sub (Some today) (date_reported r)) df)
  then Some (unarrested_df df today)
  else None.

(** ** The standard filter (lines 114-119) *)

Definition date_mask (range : Date * Date) (r : CrimeRecord) : bool :=
  ts_ge (date_reported r) (pd_to_datetime (fst range))
  && ts_le (date_reported r) (pd_to_datetime (snd range)).

Definition filter_mask (sb : Sidebar) (r : CrimeRecord) : bool :=
  date_mask (date_range sb) r
  && isin (police_station r) (selected_stations sb)
  && isin (crime_type r) (selected_crimes sb).

Definition filtered_df (df : DataFrame) (sb : Sidebar) : DataFrame :=
  List.filter (filter_mask sb) df.

(** ** Summary metrics (lines 128-140) *)

Definition fir_to_arrest (r : CrimeRecord) : option Z :=
  dt_days (ts_sub (arrest_date r) (date_reported r)).

Definition arrest_to_chargesheet (r : CrimeRecord) : option Z :=
  dt_days (ts_sub (chargesheet_date r) (arrest_date r)).

(** Line 133 as it runs: the column [filtered_df['fir_to_arrest']], or
    [None] when the subtraction raises. *)
Definition fir_to_arrest_col (fdf : DataFrame) : option (list (option Z)) :=
  if col_ok (map (fun r => ts_sub (arrest_date r) (date_reported r)) fdf)
  then Some (map fir_to_arrest fdf)
  else None.

(** The means, read where the lag columns are produced. *)
Definition avg_fir_arrest (fdf : DataFrame) : option Qc :=
  mean (map fir_to_arrest fdf).

Definition avg_arrest_cs (fdf : DataFrame) : option Qc :=
  mean (map arrest_to_chargesheet fdf).

Definition count_yes (col : list (option string)) : nat :=
  List.length
    (List.filter (fun v => eq_str (str_lower (astype_str v)) "yes") col).

(** ** Category counts (lines 149, 161, 172) *)

Definition crime_type_counts (fdf : DataFrame) : gmap string nat :=
  value_counts (map crime_type fdf).
Definition ps_counts (fdf : DataFrame) : gmap string nat :=
  value_counts (map police_station fdf).
Definition status_counts (fdf : DataFrame) : gmap string nat :=
  value_counts (map status fdf).

(** ** Monthly trend (lines 180-181) *)

Definition digit (n : Z) : ascii := ascii_of_N (Z.to_N (48 + n mod 10)).

Definition fmt4 (y : Z) : string :=
  String (digit (y / 1000)) (String (digit (y / 100))
    (String (digit (y / 10)) (String (digit y) EmptyString))).

Definition fmt2 (m : Z) : string :=
  String (digit (m / 10)) (String (digit m) EmptyString).

(** [str(Period(t, 'M'))], for the four-digit years of [datetime64[ns]]. *)
Definition period_str (y m : Z) : string :=
  (fmt4 y ++ String "-" (fmt2 m))%string.

(** [.dt.to_period("M").astype(str)] *)
Definition month_year (r : CrimeRecord) : string :=
  match date_reported r with
  | Some t => period_str (year_of t) (month_of t)
  | None => "NaT"
  end.

Definition GroupKey : Type := string * string.

(** Tuple comparison of Python strings (code-point order). *)
Definition key_compare (a b : GroupKey) : comparison :=
  match String_as_OT.compare (fst a) (fst b) with
  | Eq => String_as_OT.compare (snd a) (snd b)
  | c => c
  end.

(** One more occurrence of [k] in a table kept in increasing key order. *)
Fixpoint count_key (k : GroupKey) (tbl : list (GroupKey * nat))
  : list (GroupKey * nat) :=
  match tbl with
  | [] => [(k, 1%nat)]
  | (k', n) :: tbl' =>
      match key_compare k k' with
      | Lt => (k, 1%nat) :: tbl
      | Eq => (k', S n) :: tbl'
      | Gt => (k', n) :: count_key k tbl'
      end
  end.

(** [groupby(keys).size()] with the defaults [sort=True], [dropna=True]. *)
Definition groupby_size (keys : list (option GroupKey))
  : list (GroupKey * nat) :=
  fold_right
    (fun k tbl => match k with Some k => count_key k tbl | None => tbl end)
    [] keys.

Definition trend_key (r : CrimeRecord) : option GroupKey :=
  match crime_type r with
  | Some c => Some (month_year r, c)
  | None => None
  end.

Definition monthly_counts (fdf : DataFrame) : list (GroupKey * nat) :=
  groupby_size (map trend_key fdf).

(** ** Seasons (lines 189-196) *)

Definition season_map : gmap Z string :=
  list_to_map
    [(12, "Winter"); (1, "Winter"); (2, "Winter");
     (3, "Spring"); (4, "Spring"); (5, "Summer");
     (6, "Summer"); (7, "Monsoon"); (8, "Monsoon"); (9, "Monsoon");
     (10, "Autumn"); (11, "Autumn")]%string.

Definition month (r : CrimeRecord) : option Z :=
  option_map month_of (date_reported r).

(** [series.map(dict)]: a key missing from the dict gives a null. *)
Definition season (r : CrimeRecord) : option string :=
  match month r with
  | Some m => season_map !! m
  | None => None
  end.

Definition season_counts (fdf : DataFrame) : gmap string nat :=
  value_counts (map season fdf).

(** ** Map markers (lines 208-237) *)

Definition color_map : gmap string string :=
  list_to_map
    [("Theft", "red"); ("Murder", "black"); ("Assault", "orange");
     ("Drugs", "green"); ("Cybercrime", "blue"); ("Other", "purple")]%string.

(** [str.split(',')] *)
Fixpoint split_comma (s : string) : list string :=
  match s with
  | EmptyString => [EmptyString]
  | String c s' =>
      if Ascii.eqb c ","%char then EmptyString :: split_comma s'
      else match split_comma s' with
           | h :: t => String c h :: t
           | [] => [String c EmptyString]
           end
  end.

Section MapMarkers.

(** Python floats, the builtin [float(str)] (which raises on text that is
    not a number) and [math.isnan], used by the marker constructor to
    reject a location. *)
Variable F : Type.
Variable py_float : string -> option F.
Variable isnan : F -> bool.

Record Marker := {
  mk_lat : F;
  mk_lon : F;
  mk_fir : option string;
  mk_crime : option string;
  mk_date : option Z;
  mk_location : string;
  mk_color : string
}.

(** [lat, lon = map(float, location_str.split(','))]: any other number of
    pieces, or a piece that is not a number, raises. *)
Definition parse_location (s : string) : option (F * F) :=
  match split_comma s with
  | [a; b] =>
      match py_float a, py_float b with
      | Some lat, Some lon => Some (lat, lon)
      | _, _ => None
      end
  | _ => None
  end.

(** The body of the [try]: [None] stands for a raised exception. *)
Definition try_marker (r : CrimeRecord) (location_str : string)
  : option Marker :=
  match parse_location location_str with
  | Some (lat, lon) =>
      let crime := crime_type r in
      let color :=
        default "gray"%string
          (match crime with Some c => color_map !! c | None => None end) in
      if isnan lat || isnan lon then None
      else Some {| mk_lat := lat; mk_lon := lon;
                   mk_fir := fir_number r;
                   mk_crime := crime;
                   mk_date := option_map ts_day (date_reported r);
                   mk_location := location_str;
                   mk_color := color |}
  | None => None
  end.

(** One iteration of the loop: the markers it adds to the cluster. *)
Definition marker_of (r : CrimeRecord) : list Marker :=
  match location r with
  | Some location_str =>
      match try_marker r location_str with
      | Some mk => [mk]
      | None => [] (* except: continue *)
      end
  | None => []
  end.

Definition marker_cluster (fdf : DataFrame) : list Marker :=
  flat_map marker_of fdf.

(** ** The page *)

Record Dashboard := {
  total_cases : nat;
  fir_numbers : nat;
  arrests_made : nat;
  chargesheets_filed : nat;
  m_avg_fir_arrest : option Qc;
  m_avg_arrest_cs : option Qc;
  c_crime_type : gmap string nat;
  c_police_station : gmap string nat;
  c_status : gmap string nat;
  t_monthly : list (GroupKey * nat);
  c_season : gmap string nat;
  markers : list Marker
}.

Definition dashboard (fdf : DataFrame) : Dashboard :=
  {| total_cases := List.length fdf;
     fir_numbers := count_notnull (map fir_number fdf);
     arrests_made := count_yes (map accused_arrested fdf);
     chargesheets_filed := count_yes (map chargesheet_filed fdf);
     m_avg_fir_arrest := avg_fir_arrest fdf;
     m_avg_arrest_cs := avg_arrest_cs fdf;
     c_crime_type := crime_type_counts fdf;
     c_police_station := ps_counts fdf;
     c_status := status_counts fdf;
     t_monthly := monthly_counts fdf;
     c_season := season_counts fdf;
     markers := marker_cluster fdf |}.

Inductive View :=
| SearchView (search_result : DataFrame)
| DueView (due_soon_df : option DataFrame)
| UnarrestedView (unarrested_df : option DataFrame)
| DashboardView (d : Dashboard).

(** The script top to bottom; each [st.stop()] ends the run. *)
Definition page (df : DataFrame) (sb : Sidebar) (today : Timestamp) : View :=
  if negb (String.eqb (search_fir sb) "") then
    SearchView (search_result df (search_fir sb))
  else if show_due sb then
    DueView (due_soon_view df today)
  else if show_unarrested sb then
    UnarrestedView (unarrested_view df today)
  else
    DashboardView (dashboard (filtered_df df sb)).

End MapMarkers.

Arguments mk_lat {F}.
Arguments mk_lon {F}.
Arguments markers {F}.
Arguments c_status {F}.
Arguments c_crime_type {F}.
Arguments c_police_station {F}.
Arguments c_season {F}.
Arguments t_monthly {F}.
Arguments total_cases {F}.
Arguments SearchView {F}.
Arguments DashboardView {F}.

(** * Notions used to state the properties *)

Definition key_lt (a b : GroupKey) : Prop := key_compare a b = Lt.

Definition keys (tbl : list (GroupKey * nat)) : list GroupKey := map fst tbl.

(** [a] occurs somewhere before [b] in [l]. *)
Definition precedes {A} (a b : A) (l : list A) : Prop :=
  exists l1 l2 l3, l = l1 ++ a :: l2 ++ b :: l3.

(** Calendar order of (year, month) pairs. *)
Definition ym_lt (a b : Z * Z) : Prop :=
  fst a < fst b \/ (fst a = fst b /\ snd a < snd b).

(** The flag is one of the eight spellings of yes in capital and small
    letters. *)
Definition is_yes (flag : option string) : Prop :=
  exists c1 c2 c3,
    flag = Some (String c1 (String c2 (String c3 EmptyString))) /\
    (c1 = "y" \/ c1 = "Y")%char /\
    (c2 = "e" \/ c2 = "E")%char /\
    (c3 = "s" \/ c3 = "S")%char.

(** No due date and no difference to the reference time of the frame
    leaves the range of a nanosecond count. *)
Definition due_in_range (df : DataFrame) (today : Timestamp) : Prop :=
  in_bounds today /\
  forall r t, In r df -> date_reported r = Some t ->
              in_bounds (t + 60 * NS_PER_DAY) /\
              in_bounds (t + 60 * NS_PER_DAY - today).

(** No age of a record of the frame leaves the range of a nanosecond
    count. *)
Definition unarrested_in_range (df : DataFrame) (today : Timestamp) : Prop :=
  in_bounds today /\
  forall r t, In r df -> date_reported r = Some t -> in_bounds (today - t).

(** No arrest is further from its report than a nanosecond count can
    tell. *)
Definition lags_in_range (fdf : DataFrame) : Prop :=
  forall r a t, In r fdf -> arrest_date r = Some a -> date_reported r = Some t ->
                in_bounds (a - t).

(** The sidebar with both multiselects left at their defaults. *)
Definition with_defaults (df : DataFrame) (sb : Sidebar) : Sidebar :=
  {| date_range := date_range sb;
     selected_stations := stations df;
     selected_crimes := crime_types df;
     search_fir := search_fir sb;
     show_due := show_due sb;
     show_unarrested := show_unarrested sb |}.





(** The season table as the specification words it. *)
Definition spec_season (m : Z) : option string :=
  if existsb (Z.eqb m) [12; 1; 2] then Some "Winter"%string
  else if existsb (Z.eqb m) [3; 4] then Some "Spring"%string
  else if existsb (Z.eqb m) [5; 6] then Some "Summer"%string
  else if existsb (Z.eqb m) [7; 8; 9] then Some "Monsoon"%string
  else if existsb (Z.eqb m) [10; 11] then Some "Autumn"%string
  else None.

Definition five_seasons : list string :=
  ["Winter"; "Spring"; "Summer"; "Monsoon"; "Autumn"]%string.

(** [q] occurs in [s] when letter case is ignored. *)
Definition ci_substring (q s : string) : Prop :=
  exists pre post, lower s = (pre ++ lower q ++ post)%string.

Definition null_fir_row : CrimeRecord :=
  {| case_id := Some "C-17"%string; fir_number := None;
     police_station := Some "Kotwali"%string;
     crime_type := Some "Theft"%string;
     date_reported := Some (to_datetime 2024 1 15);
     arrest_date := None; chargesheet_date := None;
     accused_arrested := Some "No"%string;
     chargesheet_filed := Some "No"%string;
     status := Some "Open"%string;
     location := Some "19.07,82.02"%string |}.

(** Number of cells of a column equal to [k]. *)
Definition occ (k : string) (col : list (option string)) : nat :=
  List.length (List.filter (fun v => eq_str v k) col).

(** The location is null or is not two comma-separated numbers. *)
Definition malformed (F : Type) (py_float : string -> option F)
    (loc : option string) : Prop :=
  match loc with
  | Some s => parse_location F py_float s = None
  | None => True
  end.

Definition bad_loc_row : CrimeRecord :=
  {| case_id := Some "C-21"%string; fir_number := Some "FIR/21"%string;
     police_station := Some "Kotwali"%string;
     crime_type := Some "Theft"%string;
     date_reported := Some (to_datetime 2024 1 15);
     arrest_date := None; chargesheet_date := None;
     accused_arrested := Some "No"%string;
     chargesheet_filed := Some "No"%string;
     status := None;
     location := Some "not,a,coord"%string |}.

Definition sidebar_2024 : Sidebar :=
  {| date_range := ({| d_year := 2024; d_month := 1; d_day := 1 |},
                    {| d_year := 2024; d_month := 12; d_day := 31 |});
     selected_stations := ["Kotwali"%string];
     selected_crimes := ["Theft"%string];
     search_fir := EmptyString;
     show_due := false;
     show_unarrested := false |}.

(** The record's category value is one of the rows of a count table. *)
Definition counted_in (tbl : gmap string nat) (v : option string) : Prop :=
  exists k, v = Some k /\ is_Some (tbl !! k).

(** A row reported at [t] with the given crime type and flags; station
    Kotwali, no FIR number, no location. *)
Definition row_at (t : option Timestamp) (crime : string)
    (arrested filed : option string) : CrimeRecord :=
  {| case_id := None; fir_number := None;
     police_station := Some "Kotwali"%string;
     crime_type := Some crime;
     date_reported := t;
     arrest_date := None; chargesheet_date := None;
     accused_arrested := arrested;
     chargesheet_filed := filed;
     status := Some "Open"%string;
     location := None |}.

(** A stand-in for [float] that reads integer literals only. *)
Definition int_literal (s : string) : option Z :=
  option_map Z.of_int (NilZero.int_of_string s).

(** * Further parts of the script *)

(** ** Loading: column names (lines 21-29) *)

(** ASCII white space, the characters [str.strip()] removes. *)
Definition is_space (c : ascii) : bool :=
  let n := N_of_ascii c in
  ((9 <=? n) && (n <=? 13) || (28 <=? n) && (n <=? 32))%N.

Fixpoint lstrip (s : string) : string :=
  match s with
  | EmptyString => EmptyString
  | String c s' => if is_space c then lstrip s' else s
  end.

Fixpoint rstrip (s : string) : string :=
  match s with
  | EmptyString => EmptyString
  | String c s' =>
      match rstrip s' with
      | EmptyString => if is_space c then EmptyString else String c EmptyString
      | t => String c t
      end
  end.

(** [str.strip()] *)
Definition strip (s : string) : string := rstrip (lstrip s).

(** [str.replace(" ", "_")] *)
Fixpoint replace_space (s : string) : string :=
  match s with
  | EmptyString => EmptyString
  | String c s' =>
      String (if Ascii.eqb c " "%char then "_"%char else c) (replace_space s')
  end.

(** [data.columns.str.strip().str.lower().str.replace(" ", "_")] on one
    column name. *)
Definition normalize_column (name : string) : string :=
  replace_space (lower (strip name)).

Definition normalize_columns (columns : list string) : list string :=
  map normalize_column columns.

(** ** The default date range (lines 54-55) *)

(** [series.min()] and [series.max()] of a datetime column: NaT cells are
    skipped, and the result is NaT when no cell is left. *)
Definition ts_min (col : list (option Timestamp)) : option Timestamp :=
  fold_right
    (fun v acc =>
       match v, acc with
       | Some x, Some y => Some (Z.min x y)
       | Some x, None => Some x
       | None, _ => acc
       end) None col.

Definition ts_max (col : list (option Timestamp)) : option Timestamp :=
  fold_right
    (fun v acc =>
       match v, acc with
       | Some x, Some y => Some (Z.max x y)
       | Some x, None => Some x
       | None, _ => acc
       end) None col.

Definition min_date (df : DataFrame) : option Timestamp :=
  ts_min (map date_reported df).
Definition max_date (df : DataFrame) : option Timestamp :=
  ts_max (map date_reported df).

(** [Timestamp.date()]: the calendar date, the time of day dropped. *)
Definition date_of (t : Timestamp) : Date :=
  let '(y, m, d) := civil_from_days (ts_day t) in
  {| d_year := y; d_month := m; d_day := d |}.

(** The value the date-range widget starts with, as a pair of dates.  A
    column without any date is left out: [None]. *)
Definition default_date_range (df : DataFrame) : option (Date * Date) :=
  match min_date df, max_date df with
  | Some lo, Some hi => Some (date_of lo, date_of hi)
  | _, _ => None
  end.

(** The sidebar as the page first shows it: full date range, every station
    and crime type selected, no search text, no button pressed. *)
Definition default_sidebar (df : DataFrame) : option Sidebar :=
  match default_date_range df with
  | Some range =>
      Some {| date_range := range;
              selected_stations := stations df;
              selected_crimes := crime_types df;
              search_fir := EmptyString;
              show_due := false;
              show_unarrested := false |}
  | None => None
  end.

(** * Further notions *)

(** Every character of [s] satisfies [p]. *)
Fixpoint all_chars (p : ascii -> bool) (s : string) : bool :=
  match s with
  | EmptyString => true
  | String c s' => p c && all_chars p s'
  end.

Definition is_upper (c : ascii) : bool :=
  let n := N_of_ascii c in ((65 <=? n) && (n <=? 90))%N.

Definition is_comma (c : ascii) : bool := Ascii.eqb c ","%char.

(** Plain ASCII text, on which byte strings and Python strings agree. *)
Definition is_ascii (c : ascii) : bool := (N_of_ascii c <? 128)%N.

Definition ascii_text (s : string) : Prop := all_chars is_ascii s = true.

(** Every FIR number of the frame is plain ASCII text. *)
Definition ascii_firs (df : DataFrame) : Prop :=
  forall r fir, In r df -> fir_number r = Some fir -> ascii_text fir.

(** Number of commas of a string. *)
Fixpoint count_commas (s : string) : nat :=
  match s with
  | EmptyString => 0%nat
  | String c s' => ((if is_comma c then 1 else 0) + count_commas s')%nat
  end.

(** Midnight at the start of the day of [t]. *)
Definition floor_day (t : Timestamp) : Timestamp := ts_day t * NS_PER_DAY.

(** Sum of the counts of a count table. *)
Definition table_total (tbl : gmap string nat) : nat :=
  map_fold (fun _ n acc => (n + acc)%nat) 0%nat tbl.

(** Sum of the counts of a grouped table. *)
Definition group_total (tbl : list (GroupKey * nat)) : nat :=
  fold_right (fun kn acc => (snd kn + acc)%nat) 0%nat tbl.

Definition key_eqb (a b : GroupKey) : bool :=
  String.eqb (fst a) (fst b) && String.eqb (snd a) (snd b).

(** Number of rows of the frame that fall into group [k]. *)
Definition rows_in_group (k : GroupKey) (fdf : DataFrame) : nat :=
  List.length
    (List.filter
       (fun r => match trend_key r with
                 | Some k' => key_eqb k' k
                 | None => false
                 end) fdf).

(** The row gets a marker: its location reads as two numbers, neither of
    them NaN. *)
Definition has_marker (F : Type) (py_float : string -> option F)
    (isnan : F -> bool) (r : CrimeRecord) : bool :=
  match location r with
  | Some s =>
      match parse_location F py_float s with
      | Some (lat, lon) => negb (isnan lat || isnan lon)
      | None => false
      end
  | None => false
  end.

(** The crime types that have a colour of their own. *)
Definition legend_crimes : list string :=
  ["Theft"; "Murder"; "Assault"; "Drugs"; "Cybercrime"; "Other"]%string.

(** The flag test shared by the two button views. *)
Definition not_yes (flag : option string) : bool :=
  ne_str (str_lower (astype_str flag)) "yes".

(** [sb2] accepts nothing that [sb1] refuses. *)
Definition narrower (sb2 sb1 : Sidebar) : Prop :=
  pd_to_datetime (fst (date_range sb1)) <= pd_to_datetime (fst (date_range sb2)) /\
  pd_to_datetime (snd (date_range sb2)) <= pd_to_datetime (snd (date_range sb1)) /\
  incl (selected_stations sb2) (selected_stations sb1) /\
  incl (selected_crimes sb2) (selected_crimes sb1).

(** Character-wise image of a string. *)
Fixpoint smap (g : ascii -> ascii) (s : string) : string :=
  match s with
  | EmptyString => EmptyString
  | String c s' => String (g c) (smap g s')
  end.

Definition repl_char (c : ascii) : ascii :=
  if Ascii.eqb c " "%char then "_"%char else c.

(** The string is empty or starts with a character that is not white
    space. *)
Definition head_ok (s : string) : bool :=
  match s with
  | EmptyString => true
  | String c _ => negb (is_space c)
  end.

(** Sum of the counts that a grouped table holds for key [k]. *)
Definition tbl_count (k : GroupKey) (tbl : list (GroupKey * nat)) : nat :=
  fold_right
    (fun kn acc => if key_eqb (fst kn) k then (snd kn + acc)%nat else acc)
    0%nat tbl.

(** The colours of the colour table. *)
Definition legend_colors : list string :=
  ["red"; "black"; "orange"; "green"; "blue"; "purple"]%string.

(** * Properties *)

(** ** Calendar facts *)

Lemma yoe_doy_bounds doe :
  0 <= doe < 146097 ->
  0 <= yoe_of_doe doe <= 399 /\ 0 <= doy_of_doe doe <= 365.
Proof.
  intros H. unfold doy_of_doe, yoe_of_doe.
  Z.div_mod_to_equations. lia.
Qed.

Lemma month_of_range (t : Timestamp) : 1 <= month_of t <= 12.
Proof.
  unfold month_of, civil_from_days.
  set (z' := ts_day t + 719468).
  set (doe := z' - z' / 146097 * 146097).
  assert (Hdoe : 0 <= doe < 146097).
  { subst doe. Z.div_mod_to_equations. lia. }
  destruct (yoe_doy_bounds doe Hdoe) as [_ Hdoy].
  set (doy := doy_of_doe doe) in *.
  assert (Hmp : 0 <= (5 * doy + 2) / 153 <= 11).
  { Z.div_mod_to_equations. lia. }
  destruct ((5 * doy + 2) / 153 <? 10) eqn:E.
  - apply Z.ltb_lt in E. lia.
  - apply Z.ltb_ge in E. lia.
Qed.

Lemma year_of_range (t : Timestamp) :
  in_bounds t -> 1000 <= year_of t <= 9999.
Proof.
  unfold in_bounds, year_of, civil_from_days, ts_day, NS_PER_DAY.
  intros Ht.
  set (z' := t / 86400000000000 + 719468).
  assert (Hz : 612716 <= z' <= 826219).
  { subst z'. change (2 ^ 63) with 9223372036854775808 in Ht.
    Z.div_mod_to_equations. lia. }
  set (era := z' / 146097).
  assert (Hera : 4 <= era <= 5).
  { subst era. Z.div_mod_to_equations. lia. }
  set (doe := z' - era * 146097).
  assert (Hdoe : 0 <= doe < 146097).
  { subst doe era. Z.div_mod_to_equations. lia. }
  destruct (yoe_doy_bounds doe Hdoe) as [Hyoe _].
  destruct (_ <=? 2); lia.
Qed.

(** ** Order of the group keys *)

Lemma str_lt_irrefl (s : string) : ~ String_as_OT.lt s s.
Proof. exact (StrictOrder_Irreflexive (R := String_as_OT.lt) s). Qed.

Lemma str_lt_trans (a b c : string) :
  String_as_OT.lt a b -> String_as_OT.lt b c -> String_as_OT.lt a c.
Proof. exact (StrictOrder_Transitive (R := String_as_OT.lt) a b c). Qed.

Lemma key_lt_iff (a b : GroupKey) :
  key_lt a b <->
  String_as_OT.lt (fst a) (fst b) \/
  (fst a = fst b /\ String_as_OT.lt (snd a) (snd b)).
Proof.
  unfold key_lt, key_compare.
  destruct (String_as_OT.compare_spec (fst a) (fst b)) as [E | L | G].
  - rewrite E. split; [auto | intros [H | [_ H]]; [| exact H]].
    exfalso. exact (str_lt_irrefl _ H).
  - split; [auto | reflexivity].
  - split; [discriminate |]. intros [H | [H _]]; exfalso.
    + exact (str_lt_irrefl _ (str_lt_trans _ _ _ H G)).
    + rewrite H in G. exact (str_lt_irrefl _ G).
Qed.

Lemma key_compare_Eq (a b : GroupKey) : key_compare a b = Eq -> a = b.
Proof.
  destruct a as [a1 a2], b as [b1 b2]. unfold key_compare. simpl.
  destruct (String_as_OT.compare_spec a1 b1); try discriminate.
  destruct (String_as_OT.compare_spec a2 b2); try discriminate.
  intros _. congruence.
Qed.

Lemma key_compare_Gt (a b : GroupKey) : key_compare a b = Gt -> key_lt b a.
Proof.
  intros H. apply key_lt_iff. revert H. unfold key_compare.
  destruct (String_as_OT.compare_spec (fst a) (fst b)) as [E | L | G];
    try discriminate; [| auto].
  destruct (String_as_OT.compare_spec (snd a) (snd b)); try discriminate.
  auto.
Qed.

Lemma key_lt_irrefl (a : GroupKey) : ~ key_lt a a.
Proof.
  rewrite key_lt_iff. intros [H | [_ H]]; exact (str_lt_irrefl _ H).
Qed.

Lemma key_lt_trans (a b c : GroupKey) : key_lt a b -> key_lt b c -> key_lt a c.
Proof.
  rewrite !key_lt_iff.
  pose proof str_lt_trans as T.
  intros [H1 | [E1 H1]] [H2 | [E2 H2]].
  - left. eapply T; eassumption.
  - left. rewrite <- E2. exact H1.
  - left. rewrite E1. exact H2.
  - right. split; [congruence | eapply T; eassumption].
Qed.

(** ** The grouped table is strictly increasing and has the right keys *)

Lemma count_key_in (k k0 : GroupKey) tbl :
  In k (keys (count_key k0 tbl)) <-> k = k0 \/ In k (keys tbl).
Proof.
  induction tbl as [| [k' n] tbl IH]; simpl.
  - intuition.
  - destruct (key_compare k0 k') eqn:E; simpl.
    + apply key_compare_Eq in E. subst k'. intuition.
    + intuition.
    + unfold keys in IH. rewrite IH. intuition.
Qed.

Lemma count_key_hd (a k : GroupKey) tbl :
  HdRel key_lt a (keys tbl) -> key_lt a k ->
  HdRel key_lt a (keys (count_key k tbl)).
Proof.
  destruct tbl as [| [k' n] tbl]; simpl; intros Hd Hk.
  - constructor. exact Hk.
  - destruct (key_compare k k'); simpl; constructor;
      solve [exact Hk | inversion Hd; assumption].
Qed.

Lemma count_key_sorted (k : GroupKey) tbl :
  Sorted key_lt (keys tbl) -> Sorted key_lt (keys (count_key k tbl)).
Proof.
  induction tbl as [| [k' n] tbl IH]; simpl; intros Hs.
  - repeat constructor.
  - inversion Hs as [| ? ? Hs' Hd]; subst.
    destruct (key_compare k k') eqn:E; simpl.
    + constructor; assumption.
    + constructor; [exact Hs | constructor; exact E].
    + constructor; [apply IH; exact Hs' |].
      apply count_key_hd; [exact Hd | apply key_compare_Gt; exact E].
Qed.

Lemma groupby_size_sorted (ks : list (option GroupKey)) :
  StronglySorted key_lt (keys (groupby_size ks)).
Proof.
  apply Sorted_StronglySorted; [exact key_lt_trans |].
  induction ks as [| [k |] ks IH]; simpl.
  - constructor.
  - apply count_key_sorted. exact IH.
  - exact IH.
Qed.

Lemma groupby_size_in (k : GroupKey) (ks : list (option GroupKey)) :
  In k (keys (groupby_size ks)) <-> In (Some k) ks.
Proof.
  induction ks as [| [k0 |] ks IH]; simpl.
  - tauto.
  - rewrite count_key_in, IH. split; intros [H | H]; auto; left; congruence.
  - rewrite IH. split; [auto | intros [H | H]; [discriminate | exact H]].
Qed.

Lemma ssorted_app_r {A} (R : A -> A -> Prop) (l1 l2 : list A) :
  StronglySorted R (l1 ++ l2) -> StronglySorted R l2.
Proof.
  induction l1 as [| x l1 IH]; simpl; [auto |].
  intros H. inversion H; subst. auto.
Qed.

Lemma sorted_precedes (a b : GroupKey) (l : list GroupKey) :
  StronglySorted key_lt l -> In a l -> In b l -> key_lt a b -> precedes a b l.
Proof.
  intros Hs Ha Hb Hab.
  apply in_split in Ha. destruct Ha as (l1 & l2 & ->).
  apply in_app_or in Hb. destruct Hb as [Hb | [Hb | Hb]].
  - exfalso.
    apply in_split in Hb. destruct Hb as (m1 & m2 & ->).
    rewrite <- app_assoc in Hs. simpl in Hs.
    apply ssorted_app_r in Hs.
    inversion Hs as [| ? ? _ Hall]; subst.
    rewrite List.Forall_forall in Hall.
    apply (key_lt_irrefl a). eapply key_lt_trans; [exact Hab |].
    apply Hall. apply in_or_app. right. left. reflexivity.
  - subst b. exfalso. exact (key_lt_irrefl a Hab).
  - apply in_split in Hb. destruct Hb as (m1 & m2 & ->).
    exists l1, m1, m2. reflexivity.
Qed.

Lemma sorted_not_precedes (a b : GroupKey) (l : list GroupKey) :
  StronglySorted key_lt l -> key_lt a b -> ~ precedes b a l.
Proof.
  intros Hs Hab (l1 & l2 & l3 & ->).
  apply ssorted_app_r in Hs.
  inversion Hs as [| ? ? _ Hall]; subst.
  rewrite List.Forall_forall in Hall.
  apply (key_lt_irrefl a). eapply key_lt_trans; [exact Hab |].
  apply Hall. apply in_or_app. right. left. reflexivity.
Qed.

(** ** Period labels sort like the calendar *)

Lemma digit_compare (a b : Z) :
  Ascii_as_OT.compare (digit a) (digit b) = (a mod 10 ?= b mod 10).
Proof.
  unfold digit, Ascii_as_OT.compare.
  pose proof (Z.mod_pos_bound a 10 ltac:(lia)) as Ha.
  pose proof (Z.mod_pos_bound b 10 ltac:(lia)) as Hb.
  rewrite !N_ascii_embedding by lia.
  change N_as_OT.compare with N.compare.
  rewrite Z2N.inj_compare by lia.
  apply Z.add_compare_mono_l.
Qed.

Lemma period_str_lt (y1 m1 y2 m2 : Z) :
  0 <= y1 <= 9999 -> 0 <= y2 <= 9999 ->
  0 <= m1 <= 99 -> 0 <= m2 <= 99 ->
  ym_lt (y1, m1) (y2, m2) ->
  String_as_OT.lt (period_str y1 m1) (period_str y2 m2).
Proof.
  unfold ym_lt, String_as_OT.lt, period_str, fmt4, fmt2. simpl fst. simpl snd.
  intros Hy1 Hy2 Hm1 Hm2 H.
  cbv [String.append]. cbn [String_as_OT.compare].
  rewrite !digit_compare.
  change (Ascii_as_OT.compare "-" "-") with (@Eq).
  repeat match goal with
         | |- context [?a ?= ?b] => destruct (Z.compare_spec a b)
         end;
    try reflexivity; exfalso; Z.div_mod_to_equations; lia.
Qed.

(** ** Boolean masks *)

Lemma filter_idem {A} (f : A -> bool) (l : list A) :
  List.filter f (List.filter f l) = List.filter f l.
Proof.
  induction l as [| x l IH]; simpl; [reflexivity |].
  destruct (f x) eqn:E; simpl; [rewrite E, IH |]; auto.
Qed.

Ltac letter_cases c :=
  destruct c as [[] [] [] [] [] [] [] []];
  (split;
   [ intros H; try discriminate H; auto
   | intros [H | H]; try discriminate H; reflexivity ]).

Lemma lower_char_y (c : ascii) :
  lower_char c = "y"%char <-> (c = "y" \/ c = "Y")%char.
Proof. letter_cases c. Qed.

Lemma lower_char_e (c : ascii) :
  lower_char c = "e"%char <-> (c = "e" \/ c = "E")%char.
Proof. letter_cases c. Qed.

Lemma lower_char_s (c : ascii) :
  lower_char c = "s"%char <-> (c = "s" \/ c = "S")%char.
Proof. letter_cases c. Qed.

Lemma lower_yes (s : string) : lower s = "yes"%string <-> is_yes (Some s).
Proof.
  unfold is_yes. split.
  - destruct s as [| c1 [| c2 [| c3 [| c4 s]]]]; simpl; try discriminate.
    intros H. injection H as H1 H2 H3. exists c1, c2, c3.
    split; [reflexivity |].
    apply lower_char_y in H1. apply lower_char_e in H2. apply lower_char_s in H3.
    auto.
  - intros (c1 & c2 & c3 & E & H1 & H2 & H3). inversion E; subst s. simpl.
    apply lower_char_y in H1. apply lower_char_e in H2. apply lower_char_s in H3.
    rewrite H1, H2, H3. reflexivity.
Qed.

Lemma not_yes_mask (flag : option string) :
  ne_str (str_lower (astype_str flag)) "yes" = true <-> ~ is_yes flag.
Proof.
  destruct flag as [s |]; simpl.
  - rewrite negb_true_iff, String.eqb_neq, lower_yes. tauto.
  - split; [| reflexivity]. intros _ (c1 & c2 & c3 & E & _). discriminate.
Qed.

Lemma int64_ok_spec (x : Z) : int64_ok x = true <-> in_bounds x.
Proof.
  unfold int64_ok, in_bounds. rewrite andb_true_iff, !Z.ltb_lt. tauto.
Qed.

Lemma col_ok_spec {A} (f : A -> option Z) (l : list A) :
  col_ok (map f l) = true <-> forall x, In x l -> cell_ok (f x) = true.
Proof.
  unfold col_ok. rewrite forallb_forall. split.
  - intros H x Hin. apply H. apply in_map. exact Hin.
  - intros H v Hin. apply in_map_iff in Hin. destruct Hin as (x & <- & Hin).
    apply H. exact Hin.
Qed.

Lemma filter_mask_true (sb : Sidebar) (r : CrimeRecord) :
  filter_mask sb r = true <->
  date_mask (date_range sb) r = true /\
  isin (police_station r) (selected_stations sb) = true /\
  isin (crime_type r) (selected_crimes sb) = true.
Proof. unfold filter_mask. rewrite !andb_true_iff. tauto. Qed.

Lemma date_mask_true (range : Date * Date) (r : CrimeRecord) :
  date_mask range r = true <->
  exists t, date_reported r = Some t /\
            pd_to_datetime (fst range) <= t <= pd_to_datetime (snd range).
Proof.
  unfold date_mask. destruct (date_reported r) as [t |]; simpl.
  - rewrite andb_true_iff, Z.geb_le, Z.leb_le. split.
    + intros [H1 H2]. exists t. auto.
    + intros (t' & E & H). inversion E; subst. lia.
  - split; [discriminate | intros (t & E & _); discriminate].
Qed.

(** ** C9: the standard filter is idempotent *)

(** C9. Applying the standard filter twice with the same sidebar criteria
    (date range, station set, crime-type set) gives the same data-frame as
    applying it once. *)
Theorem filtered_df_idempotent (df : DataFrame) (sb : Sidebar) :
  filtered_df (filtered_df df sb) sb = filtered_df df sb.
Proof. unfold filtered_df. apply filter_idem. Qed.

(** ** C10: null station or crime type *)

(** C10. A record whose police_station or crime_type is null fails the
    standard filter for every selection, the default selection of all
    distinct non-null values included; so it is in no filtered data-frame,
    from which alone the dashboard (metrics, charts, map) is computed. *)
Theorem null_category_never_passes (sb : Sidebar) (r : CrimeRecord) :
  police_station r = None \/ crime_type r = None ->
  filter_mask sb r = false /\
  (forall df, ~ In r (filtered_df df sb)) /\
  (forall df, ~ In r (filtered_df df (with_defaults df sb))) /\
  (forall F py_float isnan df today,
      search_fir sb = EmptyString -> show_due sb = false ->
      show_unarrested sb = false ->
      page F py_float isnan df sb today =
      DashboardView (dashboard F py_float isnan (filtered_df df sb))).
Proof.
  intros Hnull.
  assert (Hm : forall sb', filter_mask sb' r = false).
  { intros sb'. unfold filter_mask.
    destruct Hnull as [E | E]; rewrite E; simpl;
      rewrite ?andb_false_r; reflexivity. }
  split; [apply Hm |]. split; [| split].
  - intros df Hin. apply filter_In in Hin. rewrite Hm in Hin.
    destruct Hin; discriminate.
  - intros df Hin. apply filter_In in Hin. rewrite Hm in Hin.
    destruct Hin; discriminate.
  - intros F py_float isnan df today Hq Hd Hu. unfold page.
    rewrite Hq, Hd, Hu. reflexivity.
Qed.

(** ** C6: null dates and the bounds of the date range *)

(** C6. A record with a null date_reported is left out by the standard
    filter for every date range, while it stays a row of the unfiltered
    data-frame; for a record with a date (and a selected station and crime
    type) membership is exactly start <= date_reported <= end, both bounds
    included. *)
Theorem date_range_filter (df1 df2 : DataFrame) (sb : Sidebar) (r : CrimeRecord) :
  let df := df1 ++ r :: df2 in
  let start := pd_to_datetime (fst (date_range sb)) in
  let stop := pd_to_datetime (snd (date_range sb)) in
  (date_reported r = None ->
     ~ In r (filtered_df df sb) /\ In r df /\
     List.length df = S (List.length df1 + List.length df2)) /\
  (forall t, date_reported r = Some t ->
     isin (police_station r) (selected_stations sb) = true ->
     isin (crime_type r) (selected_crimes sb) = true ->
     (In r (filtered_df df sb) <-> start <= t <= stop)) /\
  (start <= stop ->
     date_reported r = Some start \/ date_reported r = Some stop ->
     date_mask (date_range sb) r = true).
Proof.
  intros df start stop.
  assert (Hin : In r df) by (apply in_or_app; right; left; reflexivity).
  split; [| split].
  - intros Hnull. split; [| split].
    + intros H. apply filter_In in H. destruct H as [_ H].
      apply filter_mask_true in H. destruct H as [H _].
      apply date_mask_true in H. destruct H as (t & E & _). congruence.
    + exact Hin.
    + subst df. rewrite length_app. simpl. lia.
  - intros t Ht Hs Hc. unfold filtered_df. rewrite filter_In, filter_mask_true.
    rewrite date_mask_true. split.
    + intros (_ & (t' & E & H) & _). rewrite Ht in E. inversion E; subst. exact H.
    + intros H. split; [exact Hin |]. split; [| auto]. exists t. auto.
  - intros Hle [E | E]; apply date_mask_true; eexists; (split; [exact E |]);
      fold start stop; lia.
Qed.

(** ** C4: chargesheet due soon *)

Lemma due_soon_df_in (df : DataFrame) (today : Timestamp) (r : CrimeRecord) :
  In r (due_soon_df df today) <->
  In r df /\ ~ is_yes (chargesheet_filed r) /\
  exists t, date_reported r = Some t /\
            0 <= (t + 60 * NS_PER_DAY - today) / NS_PER_DAY <= 10.
Proof.
  unfold due_soon_df. rewrite filter_In. unfold due_mask.
  rewrite !andb_true_iff, not_yes_mask.
  unfold days_left, cs_due, to_timedelta_days.
  destruct (date_reported r) as [t |]; simpl.
  - rewrite Z.leb_le, Z.geb_le. unfold td_days. split.
    + intros (Hin & (Hy & H1) & H2). repeat split; auto.
      exists t. repeat split; auto.
    + intros (Hin & Hy & t' & E & H). inversion E; subst.
      repeat split; auto; lia.
  - split.
    + intros (_ & (_ & H) & _). discriminate.
    + intros (_ & _ & t & E & _). discriminate.
Qed.

Lemma due_soon_view_range (df : DataFrame) (today : Timestamp) :
  is_Some (due_soon_view df today) <-> due_in_range df today.
Proof.
  unfold due_soon_view, due_in_range.
  destruct (int64_ok today && col_ok (map cs_due df)
            && col_ok (map (fun r => ts_sub (cs_due r) (Some today)) df)) eqn:E.
  - split; [intros _ | eauto].
    apply andb_true_iff in E. destruct E as [E E3].
    apply andb_true_iff in E. destruct E as [E1 E2].
    apply int64_ok_spec in E1. split; [exact E1 |].
    intros r t Hin Ht.
    pose proof (proj1 (col_ok_spec _ _) E2 r Hin) as H2.
    pose proof (proj1 (col_ok_spec _ _) E3 r Hin) as H3.
    unfold cs_due, to_timedelta_days in H2, H3. rewrite Ht in H2, H3.
    simpl in H2, H3. apply int64_ok_spec in H2. apply int64_ok_spec in H3.
    split; assumption.
  - split; [intros [v H]; discriminate |]. intros (Ht & Hr). exfalso.
    rewrite <- not_true_iff_false in E. apply E.
    rewrite !andb_true_iff, int64_ok_spec, !col_ok_spec.
    split; [split; [exact Ht |] |]; intros r Hin;
      unfold cs_due, to_timedelta_days;
      destruct (date_reported r) as [t |] eqn:Ed; simpl; try reflexivity;
      apply int64_ok_spec; apply (Hr r t Hin Ed).
Qed.

Lemma due_soon_view_Some (df view : DataFrame) (today : Timestamp) :
  due_soon_view df today = Some view -> view = due_soon_df df today.
Proof.
  unfold due_soon_view. destruct (_ && _); [| discriminate].
  intros H. inversion H. reflexivity.
Qed.

(** C4. In a frame none of whose due dates, nor their differences to the
    reference time, leaves the range of a nanosecond count, the
    chargesheet-due-soon view lists a record iff its chargesheet_filed flag
    is not yes in any letter case and days_left lies in [0, 10], where the
    due date is date_reported + 60 days and days_left is
    (due date - reference time).days; in any other frame the view raises and
    lists nothing.  2024-01-01 plus 60 days is 2024-03-01, and seen from
    2024-02-25 that leaves 5 days. *)
Theorem due_soon_selection (df : DataFrame) (today : Timestamp) (r : CrimeRecord) :
  (is_Some (due_soon_view df today) <-> due_in_range df today) /\
  (forall view, due_soon_view df today = Some view ->
     (In r view <->
        In r df /\ ~ is_yes (chargesheet_filed r) /\
        exists t, date_reported r = Some t /\
                  0 <= (t + 60 * NS_PER_DAY - today) / NS_PER_DAY <= 10)) /\
  cs_due r = option_map (fun t => t + 60 * NS_PER_DAY) (date_reported r) /\
  days_left today r =
    option_map (fun t => (t + 60 * NS_PER_DAY - today) / NS_PER_DAY)
               (date_reported r) /\
  (date_reported r = Some (to_datetime 2024 1 1) ->
     cs_due r = Some (to_datetime 2024 3 1) /\
     days_left (to_datetime 2024 2 25) r = Some 5).
Proof.
  split; [apply due_soon_view_range |]. split; [| split; [| split]].
  - intros view Hv. rewrite (due_soon_view_Some df view today Hv).
    apply due_soon_df_in.
  - unfold cs_due, to_timedelta_days. destruct (date_reported r); reflexivity.
  - unfold days_left, cs_due, to_timedelta_days.
    destruct (date_reported r); reflexivity.
  - intros E. unfold days_left, cs_due. rewrite E. split; reflexivity.
Qed.

(** ** C5: accused not arrested beyond 45 days *)

Lemma unarrested_df_in (df : DataFrame) (today : Timestamp) (r : CrimeRecord) :
  In r (unarrested_df df today) <->
  In r df /\ ~ is_yes (accused_arrested r) /\
  exists t, date_reported r = Some t /\ (today - t) / NS_PER_DAY > 45.
Proof.
  unfold unarrested_df. rewrite filter_In. unfold unarrested_mask.
  rewrite andb_true_iff, not_yes_mask. unfold unarrested_days.
  destruct (date_reported r) as [t |]; simpl.
  - unfold td_days. rewrite Z.gtb_lt. split.
    + intros (Hin & Hy & H). repeat split; auto. exists t.
      split; [reflexivity | lia].
    + intros (Hin & Hy & t' & E & H). inversion E; subst.
      repeat split; auto. lia.
  - split.
    + intros (_ & _ & H). discriminate.
    + intros (_ & _ & t & E & _). discriminate.
Qed.

Lemma unarrested_view_range (df : DataFrame) (today : Timestamp) :
  is_Some (unarrested_view df today) <-> unarrested_in_range df today.
Proof.
  unfold unarrested_view, unarrested_in_range.
  destruct (int64_ok today
            && col_ok (map (fun r => ts_sub (Some today) (date_reported r)) df))
    eqn:E.
  - split; [intros _ | eauto].
    apply andb_true_iff in E. destruct E as [E1 E2].
    apply int64_ok_spec in E1. split; [exact E1 |].
    intros r t Hin Ht.
    pose proof (proj1 (col_ok_spec _ _) E2 r Hin) as H2.
    cbv beta in H2. rewrite Ht in H2. simpl in H2.
    apply int64_ok_spec in H2. exact H2.
  - split; [intros [v H]; discriminate |]. intros (Ht & Hr). exfalso.
    rewrite <- not_true_iff_false in E. apply E.
    rewrite andb_true_iff, int64_ok_spec, col_ok_spec.
    split; [exact Ht |]. intros r Hin.
    destruct (date_reported r) as [t |] eqn:Ed; simpl; [| reflexivity].
    apply int64_ok_spec. apply (Hr r t Hin Ed).
Qed.

Lemma unarrested_view_Some (df view : DataFrame) (today : Timestamp) :
  unarrested_view df today = Some view -> view = unarrested_df df today.
Proof.
  unfold unarrested_view. destruct (_ && _); [| discriminate].
  intros H. inversion H. reflexivity.
Qed.

(** C5. In a frame none of whose records is further from the reference
    time than a nanosecond count can tell, the unarrested view lists a
    record iff its accused_arrested flag is not yes in any letter case and
    (reference time - date_reported).days exceeds 45; in any other frame the
    view raises and lists nothing.  A record with a null date_reported is
    never listed, its mask evaluates to false, and its presence never makes
    the view raise. *)
Theorem unarrested_selection (df : DataFrame) (today : Timestamp) (r : CrimeRecord) :
  (is_Some (unarrested_view df today) <-> unarrested_in_range df today) /\
  (forall view, unarrested_view df today = Some view ->
     (In r view <->
        In r df /\ ~ is_yes (accused_arrested r) /\
        exists t, date_reported r = Some t /\ (today - t) / NS_PER_DAY > 45)) /\
  unarrested_days today r =
    option_map (fun t => (today - t) / NS_PER_DAY) (date_reported r) /\
  (date_reported r = None ->
     unarrested_mask today r = false /\
     (forall view, unarrested_view (r :: df) today = Some view -> ~ In r view) /\
     (is_Some (unarrested_view (r :: df) today) <->
      is_Some (unarrested_view df today))).
Proof.
  split; [apply unarrested_view_range |]. split; [| split].
  - intros view Hv. rewrite (unarrested_view_Some df view today Hv).
    apply unarrested_df_in.
  - unfold unarrested_days. destruct (date_reported r); reflexivity.
  - intros Hnull. split; [| split].
    + unfold unarrested_mask, unarrested_days. rewrite Hnull. simpl.
      apply andb_false_r.
    + intros view Hv Hin. rewrite (unarrested_view_Some _ view today Hv) in Hin.
      apply unarrested_df_in in Hin. destruct Hin as (_ & _ & t & E & _).
      congruence.
    + rewrite !unarrested_view_range. unfold unarrested_in_range. split.
      * intros (Ht & Hr). split; [exact Ht |]. intros r' t Hin.
        apply Hr. right. exact Hin.
      * intros (Ht & Hr). split; [exact Ht |]. intros r' t [<- | Hin] E.
        -- congruence.
        -- apply (Hr r' t Hin E).
Qed.

(** ** C2: means skip undefined lags *)





(** ** C7: seasons *)

Lemma season_map_lookup (m : Z) : season_map !! m = spec_season m.
Proof.
  destruct (decide (1 <= m <= 12)) as [Hin | Hout].
  - assert (H : m = 1 \/ m = 2 \/ m = 3 \/ m = 4 \/ m = 5 \/ m = 6 \/
                m = 7 \/ m = 8 \/ m = 9 \/ m = 10 \/ m = 11 \/ m = 12) by lia.
    repeat (destruct H as [-> | H]; [vm_compute; reflexivity |]).
    subst m. vm_compute. reflexivity.
  - transitivity (@None string).
    + apply not_elem_of_list_to_map_1. simpl.
      rewrite !elem_of_cons, elem_of_nil. lia.
    + unfold spec_season. simpl.
      repeat match goal with
             | |- context [m =? ?k] => destruct (Z.eqb_spec m k); [lia |]
             end.
      reflexivity.
Qed.

Lemma spec_season_total (m : Z) :
  1 <= m <= 12 -> exists s, spec_season m = Some s /\ In s five_seasons.
Proof.
  intros Hin.
  assert (H : m = 1 \/ m = 2 \/ m = 3 \/ m = 4 \/ m = 5 \/ m = 6 \/
              m = 7 \/ m = 8 \/ m = 9 \/ m = 10 \/ m = 11 \/ m = 12) by lia.
  repeat (destruct H as [-> | H];
          [eexists; split; [reflexivity | simpl; tauto] |]).
  subst m. eexists; split; [reflexivity | simpl; tauto].
Qed.

(** C7. The season dictionary is exactly the fixed table Dec, Jan, Feb ->
    Winter; Mar, Apr -> Spring; May, Jun -> Summer; Jul, Aug, Sep -> Monsoon;
    Oct, Nov -> Autumn, with no other key; the month of every timestamp is
    one of its twelve keys, so every dated record gets exactly one of the
    five seasons; months 1, 7 and 11 give Winter, Monsoon and Autumn. *)
Theorem season_map_total (r : CrimeRecord) (m : Z) (t : Timestamp) :
  season_map !! m = spec_season m /\
  (exists s, season_map !! month_of t = Some s /\ In s five_seasons) /\
  season r =
    match date_reported r with
    | Some t' => spec_season (month_of t')
    | None => None
    end /\
  season_map !! 1 = Some "Winter"%string /\
  season_map !! 7 = Some "Monsoon"%string /\
  season_map !! 11 = Some "Autumn"%string.
Proof.
  split; [apply season_map_lookup |]. split.
  - rewrite season_map_lookup. apply spec_season_total. apply month_of_range.
  - split.
    + unfold season, month. destruct (date_reported r); simpl;
        [apply season_map_lookup | reflexivity].
    + repeat split; vm_compute; reflexivity.
Qed.

(** ** C3: the monthly trend table is in calendar order *)

Lemma trend_key_in (fdf : DataFrame) (r : CrimeRecord) (c : string) :
  In r fdf -> crime_type r = Some c ->
  In (month_year r, c) (keys (monthly_counts fdf)).
Proof.
  intros Hin Hc. unfold monthly_counts. apply groupby_size_in.
  apply in_map_iff. exists r.
  split; [unfold trend_key; rewrite Hc; reflexivity | exact Hin].
Qed.

(** C3. In the monthly trend table the group of an earlier calendar
    month-year comes before the group of a later one, whatever the crime
    types: the month-year labels are compared as strings, and for the
    labels the code produces that order is the calendar order. *)
Theorem monthly_counts_chronological
    (fdf : DataFrame) (r1 r2 : CrimeRecord) (t1 t2 : Timestamp) (c1 c2 : string) :
  In r1 fdf -> In r2 fdf ->
  date_reported r1 = Some t1 -> date_reported r2 = Some t2 ->
  in_bounds t1 -> in_bounds t2 ->
  crime_type r1 = Some c1 -> crime_type r2 = Some c2 ->
  ym_lt (year_of t1, month_of t1) (year_of t2, month_of t2) ->
  precedes (month_year r1, c1) (month_year r2, c2) (keys (monthly_counts fdf)) /\
  ~ precedes (month_year r2, c2) (month_year r1, c1) (keys (monthly_counts fdf)).
Proof.
  intros Hin1 Hin2 Hd1 Hd2 Hb1 Hb2 Hc1 Hc2 Hlt.
  assert (Hk : key_lt (month_year r1, c1) (month_year r2, c2)).
  { apply key_lt_iff. left. simpl. unfold month_year. rewrite Hd1, Hd2.
    pose proof (year_of_range t1 Hb1). pose proof (year_of_range t2 Hb2).
    pose proof (month_of_range t1). pose proof (month_of_range t2).
    apply period_str_lt; try lia. exact Hlt. }
  pose proof (groupby_size_sorted (map trend_key fdf)) as Hs.
  fold (monthly_counts fdf) in Hs.
  split.
  - apply sorted_precedes; auto using trend_key_in.
  - apply sorted_not_precedes; assumption.
Qed.

(** ** C1: FIR search *)

#[local] Arguments String.append !_ _ / : simpl nomatch.

Lemma match_here_spec (q s : string) :
  match_here q s = true <-> exists post, lower s = (lower q ++ post)%string.
Proof.
  revert s. induction q as [| a q IH]; intros s; simpl.
  - split; [intros _; exists (lower s); reflexivity | reflexivity].
  - destruct s as [| c s]; simpl.
    + split; [discriminate | intros (post & H); discriminate].
    + rewrite andb_true_iff, Ascii.eqb_eq, IH. split.
      * intros (E & post & H). exists post. rewrite E, H. reflexivity.
      * intros (post & H). inversion H. eauto.
Qed.

Lemma re_search_spec (q s : string) :
  re_search q s = true <-> ci_substring q s.
Proof.
  unfold ci_substring. induction s as [| c s IH].
  - cbn [re_search]. rewrite orb_false_r, match_here_spec. split.
    + intros (post & H). exists EmptyString, post. exact H.
    + intros (pre & post & H). destruct pre; [| discriminate].
      exists post. exact H.
  - cbn [re_search]. rewrite orb_true_iff, match_here_spec, IH. split.
    + intros [(post & H) | (pre & post & H)].
      * exists EmptyString, post. exact H.
      * exists (String (lower_char c) pre), post. simpl. rewrite H. reflexivity.
    + intros (pre & post & H). destruct pre as [| a pre].
      * left. exists post. exact H.
      * right. simpl in H. inversion H. eauto.
Qed.

(** What the search mask computes: a null FIR number is searched as the
    text [nan]. *)
Lemma search_mask_spec (q : string) (r : CrimeRecord) :
  literal_pattern q = true ->
  (search_mask q r = true <->
   ci_substring q (match fir_number r with Some s => s | None => "nan" end)).
Proof.
  intros _. unfold search_mask, astype_str, str_contains.
  destruct (fir_number r); apply re_search_spec.
Qed.

(** A non-empty search string without metacharacters ends the run with the
    search result, whatever the date range, the stations and the crime types
    selected. *)
Lemma search_bypasses_filters F py_float isnan
    (df : DataFrame) (sb : Sidebar) (today : Timestamp) :
  literal_pattern (search_fir sb) = true ->
  search_fir sb <> EmptyString ->
  page F py_float isnan df sb today = SearchView (search_result df (search_fir sb)).
Proof.
  intros _ H. unfold page. apply String.eqb_neq in H. rewrite H. reflexivity.
Qed.

(** C1. Searching for the text nan returns a record whose FIR number is
    null: the column is turned into strings before the match, so the null
    cell is searched as a three-letter string. *)
Theorem search_nan_returns_null_fir :
  fir_number null_fir_row = None /\
  literal_pattern "nan" = true /\
  search_result [null_fir_row] "nan" = [null_fir_row] /\
  search_result [null_fir_row] "A" = [null_fir_row].
Proof. repeat split. Qed.

(** ** C8: a malformed location only costs the marker *)

Lemma value_counts_lookup (col : list (option string)) (k : string) :
  value_counts col !! k =
  if Nat.eqb (occ k col) 0 then None else Some (occ k col).
Proof.
  induction col as [| [k' |] col IH].
  - reflexivity.
  - change (value_counts (Some k' :: col)) with (bump k' (value_counts col)).
    unfold bump, occ. simpl.
    destruct (String.eqb_spec k' k) as [-> | Hne].
    + rewrite lookup_insert_eq, IH. simpl. fold (occ k col).
      destruct (occ k col); reflexivity.
    + rewrite lookup_insert_ne by exact Hne. exact IH.
  - exact IH.
Qed.

Lemma occ_middle (k : string) (a b : list (option string)) :
  occ k (a ++ Some k :: b) = S (occ k (a ++ b)).
Proof.
  unfold occ. rewrite !List.filter_app, !length_app. simpl.
  rewrite String.eqb_refl. simpl. lia.
Qed.

Lemma value_counts_middle {A} (col : A -> option string)
    (a b : list A) (r : A) (k : string) :
  col r = Some k ->
  value_counts (map col (a ++ r :: b)) !! k =
  Some (S (occ k (map col (a ++ b)))).
Proof.
  intros E. rewrite value_counts_lookup, !map_app. simpl. rewrite E.
  rewrite occ_middle. reflexivity.
Qed.

Lemma isin_Some (v : option string) (values : list string) :
  isin v values = true -> exists s, v = Some s.
Proof. destruct v; [eauto | discriminate]. Qed.

Lemma malformed_no_marker F py_float isnan (r : CrimeRecord) :
  malformed F py_float (location r) -> marker_of F py_float isnan r = [].
Proof.
  unfold malformed, marker_of, try_marker.
  destruct (location r) as [s |]; [| reflexivity].
  intros ->. reflexivity.
Qed.

(** Three comma-separated pieces are never a location, whatever the pieces
    are. *)
Lemma not_a_coord_malformed F py_float :
  malformed F py_float (Some "not,a,coord"%string).
Proof. reflexivity. Qed.

(** C8. A record of the filtered set whose location is null or is not two
    comma-separated numbers adds no marker, and the loop goes on to the
    other rows; the record is still counted under its crime type, its
    station and its season, and under its status when it has one. *)
Theorem malformed_location_costs_marker_only
    (F : Type) (py_float : string -> option F) (isnan : F -> bool)
    (df : DataFrame) (sb : Sidebar) (a b : DataFrame) (r : CrimeRecord) :
  filtered_df df sb = a ++ r :: b ->
  malformed F py_float (location r) ->
  marker_cluster F py_float isnan (a ++ r :: b) =
    marker_cluster F py_float isnan a ++ marker_cluster F py_float isnan b /\
  (exists c, crime_type r = Some c /\
     crime_type_counts (a ++ r :: b) !! c =
       Some (S (occ c (map crime_type (a ++ b))))) /\
  (exists p, police_station r = Some p /\
     ps_counts (a ++ r :: b) !! p =
       Some (S (occ p (map police_station (a ++ b))))) /\
  (exists s, season r = Some s /\ In s five_seasons /\
     season_counts (a ++ r :: b) !! s =
       Some (S (occ s (map season (a ++ b))))) /\
  (forall s, status r = Some s ->
     status_counts (a ++ r :: b) !! s =
       Some (S (occ s (map status (a ++ b))))).
Proof.
  intros Hf Hbad.
  assert (Hm : filter_mask sb r = true).
  { assert (Hin : In r (filtered_df df sb))
      by (rewrite Hf; apply in_or_app; right; left; reflexivity).
    apply filter_In in Hin. tauto. }
  apply filter_mask_true in Hm. destruct Hm as (Hd & Hs & Hc).
  apply date_mask_true in Hd. destruct Hd as (t & Ht & _).
  apply isin_Some in Hs. destruct Hs as (p & Hp).
  apply isin_Some in Hc. destruct Hc as (c & Hc).
  split; [| split; [| split; [| split]]].
  - unfold marker_cluster. rewrite flat_map_app. simpl.
    rewrite (malformed_no_marker F py_float isnan r Hbad). reflexivity.
  - exists c. split; [exact Hc |]. apply value_counts_middle. exact Hc.
  - exists p. split; [exact Hp |]. apply value_counts_middle. exact Hp.
  - destruct (spec_season_total (month_of t) (month_of_range t)) as (s & Hs & Hin).
    assert (E : season r = Some s).
    { unfold season, month. rewrite Ht. simpl. rewrite season_map_lookup. exact Hs. }
    exists s. split; [exact E |]. split; [exact Hin |].
    apply value_counts_middle. exact E.
  - intros s Hs. apply value_counts_middle. exact Hs.
Qed.

(** A record with a malformed location and no status passes the filter and
    is counted under its crime type, yet it is in no group of the status
    table, which is empty. *)
Lemma malformed_row_without_status_uncounted :
  In bad_loc_row (filtered_df [bad_loc_row] sidebar_2024) /\
  List.length (split_comma "not,a,coord") = 3%nat /\
  location bad_loc_row = Some "not,a,coord"%string /\
  counted_in (crime_type_counts (filtered_df [bad_loc_row] sidebar_2024))
             (crime_type bad_loc_row) /\
  status_counts (filtered_df [bad_loc_row] sidebar_2024) = ∅ /\
  ~ counted_in (status_counts (filtered_df [bad_loc_row] sidebar_2024))
               (status bad_loc_row).
Proof.
  split; [left; reflexivity |]. split; [reflexivity |].
  split; [reflexivity |]. split; [| split].
  - exists "Theft"%string. split; [reflexivity |]. exists 1%nat. reflexivity.
  - reflexivity.
  - intros (k & E & _). discriminate.
Qed.

(** * Worked instances *)

Lemma not_yes_No : ~ is_yes (Some "No"%string).
Proof. intros (c1 & c2 & c3 & E & _). discriminate E. Qed.

Lemma is_yes_YES : is_yes (Some "YES"%string).
Proof. exists "Y"%char, "E"%char, "S"%char. auto. Qed.

Lemma is_yes_Yes : is_yes (Some "Yes"%string).
Proof. exists "Y"%char, "e"%char, "s"%char. auto. Qed.

(** Jan-2024 is listed first in the data, Feb-2023 first in the table. *)
Lemma monthly_counts_chronological_witness :
  let feb23 := row_at (Some (to_datetime 2023 2 10)) "Theft" None None in
  let jan24 := row_at (Some (to_datetime 2024 1 5)) "Assault" None None in
  ym_lt (2023, 2) (2024, 1) /\
  keys (monthly_counts [jan24; feb23]) =
    [("2023-02", "Theft"); ("2024-01", "Assault")]%string /\
  precedes ("2023-02", "Theft")%string ("2024-01", "Assault")%string
    (keys (monthly_counts [jan24; feb23])) /\
  ~ precedes ("2024-01", "Assault")%string ("2023-02", "Theft")%string
    (keys (monthly_counts [jan24; feb23])).
Proof.
  intros feb23 jan24.
  split; [left; reflexivity |]. split; [reflexivity |].
  apply (monthly_counts_chronological [jan24; feb23] feb23 jan24
           (to_datetime 2023 2 10) (to_datetime 2024 1 5) "Theft" "Assault").
  - right. left. reflexivity.
  - left. reflexivity.
  - reflexivity.
  - reflexivity.
  - split; reflexivity.
  - split; reflexivity.
  - reflexivity.
  - reflexivity.
  - left. reflexivity.
Defined.

Lemma null_category_never_passes_witness :
  let r := {| case_id := None; fir_number := None; police_station := None;
              crime_type := Some "Theft"%string;
              date_reported := Some (to_datetime 2024 1 15);
              arrest_date := None; chargesheet_date := None;
              accused_arrested := None; chargesheet_filed := None;
              status := None; location := None |} in
  (police_station r = None \/ crime_type r = None) /\
  filter_mask sidebar_2024 r = false /\
  ~ In r (filtered_df [r] (with_defaults [r] sidebar_2024)).
Proof.
  intros r.
  destruct (null_category_never_passes sidebar_2024 r (or_introl eq_refl))
    as (H1 & _ & H3 & _).
  split; [left; reflexivity |]. split; [exact H1 | exact (H3 [r])].
Defined.

Lemma date_range_filter_witness :
  let undated := row_at None "Theft" None None in
  let first_day := row_at (Some (to_datetime 2024 1 1)) "Theft" None None in
  let last_day := row_at (Some (to_datetime 2024 12 31)) "Theft" None None in
  (~ In undated (filtered_df [undated; first_day] sidebar_2024) /\
   In undated [undated; first_day] /\
   List.length [undated; first_day] = 2%nat) /\
  In first_day (filtered_df [undated; first_day] sidebar_2024) /\
  date_mask (date_range sidebar_2024) last_day = true.
Proof.
  intros undated first_day last_day.
  destruct (date_range_filter [] [first_day] sidebar_2024 undated) as (H1 & _ & _).
  destruct (date_range_filter [undated] [] sidebar_2024 first_day) as (_ & H2 & _).
  destruct (date_range_filter [] [] sidebar_2024 last_day) as (_ & _ & H3).
  split; [exact (H1 eq_refl) |]. split.
  - apply (H2 (to_datetime 2024 1 1) eq_refl eq_refl eq_refl).
    split; discriminate.
  - apply H3; [discriminate | right; reflexivity].
Defined.

Lemma due_soon_selection_witness :
  let r := row_at (Some (to_datetime 2024 1 1)) "Theft" None (Some "No"%string) in
  let filed := row_at (Some (to_datetime 2024 1 1)) "Theft" None (Some "YES"%string) in
  let today := to_datetime 2024 2 25 in
  due_soon_view [r; filed] today = Some [r] /\
  In r [r] /\
  (In filed [r] <-> False) /\
  cs_due r = Some (to_datetime 2024 3 1) /\
  days_left today r = Some 5.
Proof.
  intros r filed today.
  assert (Hv : due_soon_view [r; filed] today = Some [r])
    by (vm_compute; reflexivity).
  destruct (due_soon_selection [r; filed] today r) as (_ & Hsel & _ & _ & Hex).
  destruct (due_soon_selection [r; filed] today filed) as (_ & Hfiled & _).
  split; [exact Hv |]. split; [| split; [| exact (Hex eq_refl)]].
  - apply (Hsel [r] Hv). split; [left; reflexivity |].
    split; [exact not_yes_No |].
    exists (to_datetime 2024 1 1). split; [reflexivity |].
    split; vm_compute; discriminate.
  - split; [| tauto]. intros Hin. apply (Hfiled [r] Hv) in Hin.
    destruct Hin as (_ & Hn & _). exact (Hn is_yes_YES).
Defined.

(** A frame that also holds a record dated 2262-03-01: its due date is
    past the last nanosecond a Timestamp can tell, the view raises, and the
    record due in 5 days is not listed. *)
Lemma due_soon_overflow_frame :
  let far := row_at (Some (to_datetime 2262 3 1)) "Theft" None (Some "No"%string) in
  let due := row_at (Some (to_datetime 2024 1 1)) "Theft" None (Some "No"%string) in
  let today := to_datetime 2024 2 25 in
  int64_ok (to_datetime 2262 3 1) = true /\
  int64_ok (to_datetime 2262 3 1 + 60 * NS_PER_DAY) = false /\
  In due [far; due] /\
  (is_yes (chargesheet_filed due) -> False) /\
  days_left today due = Some 5 /\
  due_soon_view [far; due] today = None.
Proof.
  simpl. split; [vm_compute; reflexivity |]. split; [vm_compute; reflexivity |].
  split; [right; left; reflexivity |]. split; [exact not_yes_No |].
  split; vm_compute; reflexivity.
Qed.

Lemma unarrested_selection_witness :
  let r := row_at (Some (to_datetime 2024 1 1)) "Theft" (Some "No"%string) None in
  let held := row_at (Some (to_datetime 2024 1 1)) "Theft" (Some "Yes"%string) None in
  let undated := row_at None "Theft" (Some "No"%string) None in
  let today := datetime 2024 3 1 9 30 in
  unarrested_view [undated; r; held] today = Some [r] /\
  In r [r] /\
  (In held [r] <-> False) /\
  unarrested_days today r = Some 60 /\
  date_reported undated = None /\
  unarrested_mask today undated = false /\
  (In undated [r] <-> False).
Proof.
  intros r held undated today.
  assert (Hv : unarrested_view [undated; r; held] today = Some [r])
    by (vm_compute; reflexivity).
  destruct (unarrested_selection [undated; r; held] today r) as (_ & Hsel & _).
  destruct (unarrested_selection [undated; r; held] today held) as (_ & Hheld & _).
  destruct (unarrested_selection [r; held] today undated) as (_ & _ & _ & Hnull).
  destruct (Hnull eq_refl) as (Hm & Hnot & _).
  split; [exact Hv |]. split; [| split; [| split; [| split; [| split]]]].
  - apply (Hsel [r] Hv). split; [right; left; reflexivity |].
    split; [exact not_yes_No |].
    exists (to_datetime 2024 1 1). split; [reflexivity |].
    vm_compute. reflexivity.
  - split; [| tauto]. intros Hin. apply (Hheld [r] Hv) in Hin.
    destruct Hin as (_ & Hn & _). exact (Hn is_yes_Yes).
  - vm_compute. reflexivity.
  - reflexivity.
  - exact Hm.
  - split; [| tauto]. exact (Hnot [r] Hv).
Defined.

(** A frame that also holds a record dated 1700-01-15: its age is more
    than a nanosecond count can tell, the view raises, and the record
    reported 60 days ago is not listed. *)
Lemma unarrested_overflow_frame :
  let old := row_at (Some (to_datetime 1700 1 15)) "Theft" (Some "No"%string) None in
  let r := row_at (Some (to_datetime 2024 1 1)) "Theft" (Some "No"%string) None in
  let today := datetime 2024 3 1 9 30 in
  int64_ok (to_datetime 1700 1 15) = true /\
  int64_ok (today - to_datetime 1700 1 15) = false /\
  In r [old; r] /\
  (is_yes (accused_arrested r) -> False) /\
  unarrested_days today r = Some 60 /\
  unarrested_view [old; r] today = None.
Proof.
  simpl. split; [vm_compute; reflexivity |]. split; [vm_compute; reflexivity |].
  split; [right; left; reflexivity |]. split; [exact not_yes_No |].
  split; vm_compute; reflexivity.
Qed.

Lemma malformed_location_costs_marker_only_witness :
  let good := {| case_id := None; fir_number := Some "FIR/7"%string;
                 police_station := Some "Kotwali"%string;
                 crime_type := Some "Theft"%string;
                 date_reported := Some (to_datetime 2024 7 4);
                 arrest_date := None; chargesheet_date := None;
                 accused_arrested := None; chargesheet_filed := None;
                 status := Some "Open"%string;
                 location := Some "19,82"%string |} in
  let bad := {| case_id := None; fir_number := Some "FIR/8"%string;
                police_station := Some "Kotwali"%string;
                crime_type := Some "Theft"%string;
                date_reported := Some (to_datetime 2024 7 9);
                arrest_date := None; chargesheet_date := None;
                accused_arrested := None; chargesheet_filed := None;
                status := Some "Open"%string;
                location := Some "not,a,coord"%string |} in
  filtered_df [good; bad] sidebar_2024 = [good] ++ bad :: [] /\
  malformed Z int_literal (location bad) /\
  List.length (marker_cluster Z int_literal (fun _ => false) [good; bad]) = 1%nat /\
  crime_type_counts [good; bad] !! "Theft"%string = Some 2%nat /\
  season_counts [good; bad] !! "Monsoon"%string = Some 2%nat /\
  status_counts [good; bad] !! "Open"%string = Some 2%nat.
Proof.
  intros good bad.
  destruct (malformed_location_costs_marker_only Z int_literal (fun _ => false)
              [good; bad] sidebar_2024 [good] [] bad eq_refl eq_refl)
    as (Hm & (c & Hc & Hcc) & _ & (s & Hs & _ & Hsc) & Hst).
  split; [reflexivity |]. split; [reflexivity |].
  split; [change ([good; bad]) with ([good] ++ bad :: []); rewrite Hm; reflexivity |].
  assert (Ec : c = "Theft"%string) by (vm_compute in Hc; congruence).
  assert (Es : s = "Monsoon"%string) by (vm_compute in Hs; congruence).
  subst c s.
  split; [exact Hcc |]. split; [exact Hsc |].
  exact (Hst "Open"%string eq_refl).
Defined.

(** A record reported in the afternoon of the last day of the range is
    later than the midnight that ends the range. *)
Example last_day_afternoon :
  date_mask (date_range sidebar_2024)
    (row_at (Some (datetime 2024 12 31 14 30)) "Theft" None None) = false.
Proof. reflexivity. Qed.

(** * Further properties *)

(** ** Column names *)

Ltac each_char c :=
  destruct c as [[] [] [] [] [] [] [] []]; try reflexivity; try discriminate.

Lemma lower_smap (s : string) : lower s = smap lower_char s.
Proof. induction s as [| c s IH]; simpl; [| rewrite IH]; reflexivity. Qed.

Lemma replace_space_smap (s : string) : replace_space s = smap repl_char s.
Proof. induction s as [| c s IH]; simpl; [| rewrite IH]; reflexivity. Qed.

Lemma smap_smap (g h : ascii -> ascii) (s : string) :
  smap g (smap h s) = smap (fun c => g (h c)) s.
Proof. induction s as [| c s IH]; simpl; [| rewrite IH]; reflexivity. Qed.

Lemma smap_ext (g h : ascii -> ascii) (s : string) :
  (forall c, g c = h c) -> smap g s = smap h s.
Proof.
  intros E. induction s as [| c s IH]; simpl; [| rewrite IH, E]; reflexivity.
Qed.

Lemma all_chars_smap (p : ascii -> bool) (g : ascii -> ascii) (s : string) :
  (forall c, p (g c) = true) -> all_chars p (smap g s) = true.
Proof.
  intros H. induction s as [| c s IH]; simpl; [| rewrite H, IH]; reflexivity.
Qed.

Lemma lstrip_head_ok (s : string) : head_ok (lstrip s) = true.
Proof.
  induction s as [| c s IH]; simpl; [reflexivity |].
  destruct (is_space c) eqn:E; [exact IH |]. simpl. rewrite E. reflexivity.
Qed.

Lemma head_ok_lstrip (t : string) : head_ok t = true -> lstrip t = t.
Proof.
  destruct t as [| c t]; simpl; [reflexivity |].
  destruct (is_space c); [discriminate | reflexivity].
Qed.

Lemma rstrip_head_ok (t : string) : head_ok t = true -> head_ok (rstrip t) = true.
Proof.
  destruct t as [| c t]; simpl; [reflexivity |]. intros H.
  apply negb_true_iff in H.
  destruct (rstrip t); [rewrite H |]; simpl; rewrite H; reflexivity.
Qed.

Lemma rstrip_idem (t : string) : rstrip (rstrip t) = rstrip t.
Proof.
  induction t as [| c t IH]; simpl; [reflexivity |].
  destruct (rstrip t) as [| a u] eqn:E.
  - destruct (is_space c) eqn:Ec; simpl; [| rewrite Ec]; reflexivity.
  - simpl in *. rewrite IH. reflexivity.
Qed.

Lemma rstrip_fixed_smap (g : ascii -> ascii) (t : string) :
  (forall c, is_space c = false -> is_space (g c) = false) ->
  rstrip t = t -> rstrip (smap g t) = smap g t.
Proof.
  intros Hg. induction t as [| c t IH]; simpl; [reflexivity |].
  destruct (rstrip t) as [| a u] eqn:E.
  - destruct (is_space c) eqn:Ec; [discriminate |].
    intros H. inversion H; subst t. simpl. rewrite (Hg c Ec). reflexivity.
  - intros H. inversion H as [H1]. rewrite H1 in IH, E |- *.
    rewrite (IH eq_refl). rewrite <- H1. reflexivity.
Qed.

Lemma head_ok_smap (g : ascii -> ascii) (t : string) :
  (forall c, is_space c = false -> is_space (g c) = false) ->
  head_ok t = true -> head_ok (smap g t) = true.
Proof.
  intros Hg. destruct t as [| c t]; simpl; [reflexivity |].
  rewrite !negb_true_iff. apply Hg.
Qed.

Lemma lower_char_keeps_nonspace (c : ascii) :
  is_space c = false -> is_space (lower_char c) = false.
Proof. each_char c. Qed.

Lemma repl_char_keeps_nonspace (c : ascii) :
  is_space c = false -> is_space (repl_char c) = false.
Proof. each_char c. Qed.

Lemma repl_lower_idem (c : ascii) :
  repl_char (lower_char (repl_char (lower_char c))) = repl_char (lower_char c).
Proof. each_char c. Qed.

Lemma repl_lower_no_blank (c : ascii) :
  negb (Ascii.eqb (repl_char (lower_char c)) " ") = true.
Proof. each_char c. Qed.

Lemma repl_lower_no_upper (c : ascii) :
  negb (is_upper (repl_char (lower_char c))) = true.
Proof. each_char c. Qed.

Lemma normalize_column_smap (name : string) :
  normalize_column name =
  smap (fun c => repl_char (lower_char c)) (strip name).
Proof.
  unfold normalize_column. rewrite lower_smap, replace_space_smap.
  apply smap_smap.
Qed.

Lemma normalize_column_stripped (name : string) :
  strip (normalize_column name) = normalize_column name.
Proof.
  rewrite normalize_column_smap.
  assert (Hg : forall c, is_space c = false ->
                         is_space (repl_char (lower_char c)) = false).
  { intros c H. apply repl_char_keeps_nonspace, lower_char_keeps_nonspace, H. }
  unfold strip at 1. rewrite head_ok_lstrip.
  - apply rstrip_fixed_smap; [exact Hg |]. unfold strip. apply rstrip_idem.
  - apply head_ok_smap; [exact Hg |]. unfold strip.
    apply rstrip_head_ok, lstrip_head_ok.
Qed.

(** X1. Normalising the column names is idempotent, and a normalised name
    has no blank, no ASCII capital and no white space at either end. *)
Theorem normalize_columns_canonical (columns : list string) :
  normalize_columns (normalize_columns columns) = normalize_columns columns /\
  Forall (fun name =>
            all_chars (fun c => negb (Ascii.eqb c " ")) name = true /\
            all_chars (fun c => negb (is_upper c)) name = true /\
            strip name = name)
         (normalize_columns columns).
Proof.
  split.
  - unfold normalize_columns. rewrite map_map. apply map_ext. intros name.
    rewrite (normalize_column_smap (normalize_column name)).
    rewrite normalize_column_stripped, normalize_column_smap, smap_smap.
    apply smap_ext. intros c. apply repl_lower_idem.
  - unfold normalize_columns. apply List.Forall_forall. intros name Hin.
    apply in_map_iff in Hin. destruct Hin as (raw & <- & _).
    split; [| split].
    + rewrite normalize_column_smap. apply all_chars_smap, repl_lower_no_blank.
    + rewrite normalize_column_smap. apply all_chars_smap, repl_lower_no_upper.
    + apply normalize_column_stripped.
Qed.

(** ** Options of the multiselects *)

Lemma mem_str (s : string) (l : list string) :
  existsb (String.eqb s) l = true <-> In s l.
Proof.
  rewrite existsb_exists. split.
  - intros (x & Hin & E). apply String.eqb_eq in E. subst. exact Hin.
  - intros Hin. exists s. split; [exact Hin | apply String.eqb_refl].
Qed.

Lemma unique_from_in (s : string) (seen : list string) (col : list (option string)) :
  In s (unique_from seen col) <-> In (Some s) col /\ ~ In s seen.
Proof.
  revert seen. induction col as [| [x |] col IH]; intros seen; simpl.
  - tauto.
  - destruct (existsb (String.eqb x) seen) eqn:E.
    + apply mem_str in E. rewrite IH. split.
      * intros [H1 H2]. auto.
      * intros [[H | H] H2]; [| auto]. inversion H; subst. contradiction.
    + assert (Hx : ~ In x seen).
      { intros H. apply mem_str in H. congruence. }
      simpl. rewrite IH. simpl. split.
      * intros [-> | [H1 H2]]; [auto |]. split; [auto |]. tauto.
      * intros [[H | H] H2].
        -- inversion H; subst. auto.
        -- destruct (String.eqb_spec x s) as [-> | Hne]; [auto |].
           right. split; [exact H |]. intros [Hc | Hc]; auto.
  - rewrite IH. split; intros [H1 H2]; split; auto.
    destruct H1 as [H1 | H1]; [discriminate | exact H1].
Qed.

Lemma unique_from_nodup (seen : list string) (col : list (option string)) :
  List.NoDup (unique_from seen col).
Proof.
  revert seen. induction col as [| [x |] col IH]; intros seen; simpl.
  - apply List.NoDup_nil.
  - destruct (existsb (String.eqb x) seen); [apply IH |].
    apply List.NoDup_cons; [| apply IH].
    rewrite unique_from_in. simpl. tauto.
  - apply IH.
Qed.

Lemma dropna_unique_in (s : string) (col : list (option string)) :
  In s (dropna_unique col) <-> In (Some s) col.
Proof. unfold dropna_unique. rewrite unique_from_in. simpl. tauto. Qed.

(** X2. The options of the station and crime-type multiselects are the
    values that occur in the column, nulls left out, each listed once. *)
Theorem multiselect_options (df : DataFrame) :
  List.NoDup (stations df) /\ List.NoDup (crime_types df) /\
  (forall s, In s (stations df) <-> exists r, In r df /\ police_station r = Some s) /\
  (forall c, In c (crime_types df) <-> exists r, In r df /\ crime_type r = Some c).
Proof.
  unfold stations, crime_types.
  split; [apply unique_from_nodup |]. split; [apply unique_from_nodup |].
  split; intros s; rewrite dropna_unique_in, in_map_iff;
    split; intros (r & H1 & H2); exists r; auto.
Qed.

(** ** The page as first shown *)

Lemma doe_roundtrip (doe : Z) :
  0 <= doe < 146097 ->
  yoe_of_doe doe * 365 + yoe_of_doe doe / 4 - yoe_of_doe doe / 100
    + doy_of_doe doe = doe.
Proof. intros H. unfold doy_of_doe. lia. Qed.

Lemma mp_roundtrip (doy : Z) :
  0 <= doy <= 365 ->
  (153 * ((5 * doy + 2) / 153) + 2) / 5
    + (doy - (153 * ((5 * doy + 2) / 153) + 2) / 5 + 1) - 1 = doy /\
  0 <= (5 * doy + 2) / 153 <= 11.
Proof. intros H. Z.div_mod_to_equations. lia. Qed.

(** The day number of the civil date of a day number is that day number. *)
Lemma days_civil_roundtrip (z : Z) :
  let '(y, m, d) := civil_from_days z in days_from_civil y m d = z.
Proof.
  unfold civil_from_days, days_from_civil.
  set (z' := z + 719468).
  set (era := z' / 146097).
  set (doe := z' - era * 146097).
  assert (Hdoe : 0 <= doe < 146097).
  { subst doe era. Z.div_mod_to_equations. lia. }
  destruct (yoe_doy_bounds doe Hdoe) as [Hyoe Hdoy].
  pose proof (doe_roundtrip doe Hdoe) as Hr.
  set (yoe := yoe_of_doe doe) in *.
  set (doy := doy_of_doe doe) in *.
  destruct (mp_roundtrip doy Hdoy) as (Hm & Hmp).
  set (mp := (5 * doy + 2) / 153) in *.
  destruct (mp <? 10) eqn:E.
  - apply Z.ltb_lt in E.
    replace (mp + 3 <=? 2) with false by (symmetry; apply Z.leb_gt; lia).
    replace ((mp + 3 + 9) mod 12) with mp by (Z.div_mod_to_equations; lia).
    replace ((yoe + era * 400) / 400) with era by (Z.div_mod_to_equations; lia).
    replace (yoe + era * 400 - era * 400) with yoe by lia.
    subst doe z'. lia.
  - apply Z.ltb_ge in E.
    replace (mp - 9 <=? 2) with true by (symmetry; apply Z.leb_le; lia).
    replace ((mp - 9 + 9) mod 12) with mp by (Z.div_mod_to_equations; lia).
    replace (yoe + era * 400 + 1 - 1) with (yoe + era * 400) by lia.
    replace ((yoe + era * 400) / 400) with era by (Z.div_mod_to_equations; lia).
    replace (yoe + era * 400 - era * 400) with yoe by lia.
    subst doe z'. lia.
Qed.

Lemma to_datetime_date_of (t : Timestamp) :
  pd_to_datetime (date_of t) = floor_day t.
Proof.
  unfold pd_to_datetime, date_of, floor_day, to_datetime.
  pose proof (days_civil_roundtrip (ts_day t)) as H.
  destruct (civil_from_days (ts_day t)) as [[y m] d]. simpl. rewrite H.
  reflexivity.
Qed.

Lemma floor_day_le (t : Timestamp) : floor_day t <= t.
Proof.
  unfold floor_day, ts_day, NS_PER_DAY. Z.div_mod_to_equations. lia.
Qed.

Lemma floor_day_mono (a b : Timestamp) : a <= b -> floor_day a <= floor_day b.
Proof.
  unfold floor_day, ts_day, NS_PER_DAY. intros H. Z.div_mod_to_equations. lia.
Qed.

Lemma ts_min_le (col : list (option Timestamp)) (lo t : Timestamp) :
  ts_min col = Some lo -> In (Some t) col -> lo <= t.
Proof.
  revert lo. induction col as [| [x |] col IH]; intros lo; simpl.
  - intros _ [].
  - destruct (ts_min col) as [y |] eqn:E; intros H [Hin | Hin];
      inversion H; subst.
    + inversion Hin; subst. lia.
    + specialize (IH y eq_refl Hin). lia.
    + inversion Hin; subst. lia.
    + exfalso. clear - E Hin. induction col as [| [z |] col IHc]; simpl in *.
      * destruct Hin.
      * destruct (ts_min col); discriminate.
      * destruct Hin as [Hin | Hin]; [discriminate | auto].
  - intros H [Hin | Hin]; [discriminate | auto].
Qed.

Lemma ts_max_ge (col : list (option Timestamp)) (hi t : Timestamp) :
  ts_max col = Some hi -> In (Some t) col -> t <= hi.
Proof.
  revert hi. induction col as [| [x |] col IH]; intros hi; simpl.
  - intros _ [].
  - destruct (ts_max col) as [y |] eqn:E; intros H [Hin | Hin];
      inversion H; subst.
    + inversion Hin; subst. lia.
    + specialize (IH y eq_refl Hin). lia.
    + inversion Hin; subst. lia.
    + exfalso. clear - E Hin. induction col as [| [z |] col IHc]; simpl in *.
      * destruct Hin.
      * destruct (ts_max col); discriminate.
      * destruct Hin as [Hin | Hin]; [discriminate | auto].
  - intros H [Hin | Hin]; [discriminate | auto].
Qed.

Lemma isin_options (v : option string) (col : list (option string)) :
  In v col -> isin v (dropna_unique col) = negb (match v with None => true | _ => false end).
Proof.
  intros Hin. destruct v as [s |]; simpl; [| reflexivity].
  apply mem_str, dropna_unique_in, Hin.
Qed.

(** X3. With the sidebar as first shown (full date range, every station and
    crime type selected) a record of the data passes the filter iff it has a
    station and a crime type and its date_reported is not later than the
    midnight that starts the latest reported day; when all dates are plain
    midnights the filter keeps exactly the records with a date, a station
    and a crime type. *)
Theorem default_view_keeps (df : DataFrame) (sb : Sidebar) (r : CrimeRecord) :
  default_sidebar df = Some sb -> In r df ->
  (filter_mask sb r = true <->
     exists t hi, date_reported r = Some t /\ max_date df = Some hi /\
                  t <= floor_day hi /\
                  police_station r <> None /\ crime_type r <> None) /\
  ((forall r' t', In r' df -> date_reported r' = Some t' -> floor_day t' = t') ->
   (filter_mask sb r = true <->
      date_reported r <> None /\ police_station r <> None /\
      crime_type r <> None)).
Proof.
  unfold default_sidebar, default_date_range.
  destruct (min_date df) as [lo |] eqn:Elo; [| discriminate].
  destruct (max_date df) as [hi |] eqn:Ehi; [| discriminate].
  intros Hsb Hin. inversion Hsb; subst sb. clear Hsb.
  assert (Hmain : filter_mask
     {| date_range := (date_of lo, date_of hi);
        selected_stations := stations df; selected_crimes := crime_types df;
        search_fir := ""; show_due := false; show_unarrested := false |} r = true <->
     exists t hi', date_reported r = Some t /\ Some hi = Some hi' /\
                  t <= floor_day hi' /\
                  police_station r <> None /\ crime_type r <> None).
  { rewrite filter_mask_true, date_mask_true. simpl.
    rewrite !to_datetime_date_of.
    unfold stations, crime_types.
    rewrite (isin_options (police_station r)) by (apply in_map; exact Hin).
    rewrite (isin_options (crime_type r)) by (apply in_map; exact Hin).
    split.
    - intros ((t & Ht & _ & Hle) & Hs & Hc). exists t, hi.
      repeat split; auto.
      + intros E. rewrite E in Hs. discriminate.
      + intros E. rewrite E in Hc. discriminate.
    - intros (t & hi' & Ht & Ehi' & Hle & Hs & Hc). inversion Ehi'; subst hi'.
      split; [| split].
      + exists t. split; [exact Ht |]. split; [| exact Hle].
        assert (lo <= t).
        { apply (ts_min_le (map date_reported df)); [exact Elo |].
          rewrite <- Ht. apply in_map. exact Hin. }
        pose proof (floor_day_le lo). lia.
      + destruct (police_station r); [reflexivity | contradiction].
      + destruct (crime_type r); [reflexivity | contradiction]. }
  split; [exact Hmain |].
  intros Hmid. rewrite Hmain. split.
  - intros (t & hi' & Ht & _ & _ & Hs & Hc). rewrite Ht. repeat split; auto.
  - intros (Hd & Hs & Hc). destruct (date_reported r) as [t |] eqn:Ht;
      [| contradiction].
    exists t, hi. repeat split; auto.
    assert (Hle : t <= hi).
    { apply (ts_max_ge (map date_reported df)); [exact Ehi |].
      rewrite <- Ht. apply in_map. exact Hin. }
    rewrite <- (Hmid r t Hin Ht). apply floor_day_mono. exact Hle.
Qed.

(** ** FIR search on FIR numbers that are present *)

Lemma lower_char_idem (c : ascii) : lower_char (lower_char c) = lower_char c.
Proof. each_char c. Qed.

Lemma lower_idem (s : string) : lower (lower s) = lower s.
Proof.
  induction s as [| c s IH]; simpl; [| rewrite lower_char_idem, IH]; reflexivity.
Qed.

Lemma is_meta_lower (c : ascii) : is_meta (lower_char c) = is_meta c.
Proof. each_char c. Qed.

Lemma literal_pattern_lower (q : string) :
  literal_pattern (lower q) = literal_pattern q.
Proof.
  unfold literal_pattern. induction q as [| c q IH]; simpl; [reflexivity |].
  rewrite is_meta_lower, IH. reflexivity.
Qed.

Lemma search_mask_lower (q : string) (r : CrimeRecord) :
  literal_pattern q = true ->
  search_mask (lower q) r = search_mask q r.
Proof.
  intros Hq. apply eq_true_iff_eq.
  rewrite (search_mask_spec (lower q)) by (rewrite literal_pattern_lower; exact Hq).
  rewrite (search_mask_spec q) by exact Hq.
  unfold ci_substring. rewrite lower_idem. tauto.
Qed.

(** X4. For a query of plain ASCII text without regular-expression
    metacharacters, a record with a plain ASCII FIR number is in the search
    result iff the query occurs in the FIR number when letter case is
    ignored; the letter case of the query does not matter either, and
    changing it keeps the query free of metacharacters. *)
Theorem search_finds_fir_substring
    (df : DataFrame) (q : string) (r : CrimeRecord) (fir : string) :
  literal_pattern q = true -> ascii_text q ->
  fir_number r = Some fir -> ascii_text fir ->
  (In r (search_result df q) <-> In r df /\ ci_substring q fir) /\
  literal_pattern (lower q) = true /\
  search_result df (lower q) = search_result df q.
Proof.
  intros Hq _ Hfir _. split; [| split].
  - unfold search_result. rewrite filter_In, (search_mask_spec q r Hq), Hfir.
    tauto.
  - rewrite literal_pattern_lower. exact Hq.
  - unfold search_result. apply filter_ext. intros r'.
    apply search_mask_lower. exact Hq.
Qed.

(** X5. While the search box holds plain ASCII text without
    regular-expression metacharacters, and the FIR numbers are plain ASCII
    text, the page is the search result: the two buttons, the date range,
    the station and crime-type selections and the clock change nothing. *)
Theorem search_text_overrides_sidebar F py_float isnan
    (df : DataFrame) (sb1 sb2 : Sidebar) (today1 today2 : Timestamp) :
  literal_pattern (search_fir sb1) = true -> ascii_text (search_fir sb1) ->
  ascii_firs df ->
  search_fir sb1 <> EmptyString ->
  search_fir sb2 = search_fir sb1 ->
  page F py_float isnan df sb1 today1 = page F py_float isnan df sb2 today2 /\
  page F py_float isnan df sb1 today1 = SearchView (search_result df (search_fir sb1)).
Proof.
  intros _ _ _ Hq E. unfold page. rewrite E.
  apply String.eqb_neq in Hq. rewrite Hq. simpl. auto.
Qed.

(** ** The windows of the two button views *)

(** X6. Whenever the due-soon view is produced (no due date and no
    difference to the reference time leaves the range of a nanosecond
    count), it lists a record whose chargesheet is not filed exactly while
    the reference time is more than 49 days and at most 60 days after
    date_reported: a chargesheet that is overdue is no longer listed. *)
Theorem due_soon_window
    (df view : DataFrame) (today : Timestamp) (r : CrimeRecord) :
  due_soon_view df today = Some view ->
  (In r view <->
   In r df /\ ~ is_yes (chargesheet_filed r) /\
   exists t, date_reported r = Some t /\
             t + 49 * NS_PER_DAY < today <= t + 60 * NS_PER_DAY).
Proof.
  intros Hv. rewrite (due_soon_view_Some df view today Hv), due_soon_df_in.
  unfold NS_PER_DAY. split.
  - intros (Hin & Hy & t & Ht & H). repeat split; auto. exists t.
    split; [exact Ht |]. Z.div_mod_to_equations. lia.
  - intros (Hin & Hy & t & Ht & H). repeat split; auto. exists t.
    split; [exact Ht |]. Z.div_mod_to_equations. lia.
Qed.

(** X7. Whenever the unarrested view is produced (no age leaves the range
    of a nanosecond count), it lists a record whose accused is not arrested
    exactly when at least 46 whole days have passed since date_reported: 45
    days and some hours are not enough. *)
Theorem unarrested_threshold
    (df view : DataFrame) (today : Timestamp) (r : CrimeRecord) :
  unarrested_view df today = Some view ->
  (In r view <->
   In r df /\ ~ is_yes (accused_arrested r) /\
   exists t, date_reported r = Some t /\ today - t >= 46 * NS_PER_DAY).
Proof.
  intros Hv. rewrite (unarrested_view_Some df view today Hv), unarrested_df_in.
  unfold NS_PER_DAY. split.
  - intros (Hin & Hy & t & Ht & H). repeat split; auto. exists t.
    split; [exact Ht |]. Z.div_mod_to_equations. lia.
  - intros (Hin & Hy & t & Ht & H). repeat split; auto. exists t.
    split; [exact Ht |]. Z.div_mod_to_equations. lia.
Qed.

(** ** Flags and head-line counts *)

Lemma yes_or_not (flag : option string) :
  eq_str (str_lower (astype_str flag)) "yes" = negb (not_yes flag).
Proof.
  unfold not_yes. destruct flag; simpl; [rewrite negb_involutive |]; reflexivity.
Qed.

Lemma filter_length_le {A} (f : A -> bool) (l : list A) :
  (List.length (List.filter f l) <= List.length l)%nat.
Proof.
  induction l as [| x l IH]; simpl; [lia |]. destruct (f x); simpl; lia.
Qed.

Lemma filter_split_length {A} (f : A -> bool) (l : list A) :
  (List.length (List.filter f l) +
   List.length (List.filter (fun x => negb (f x)) l) = List.length l)%nat.
Proof.
  induction l as [| x l IH]; simpl; [lia |]. destruct (f x); simpl; lia.
Qed.

Lemma count_yes_rows (col : CrimeRecord -> option string) (fdf : DataFrame) :
  count_yes (map col fdf) =
  List.length (List.filter (fun r => negb (not_yes (col r))) fdf).
Proof.
  unfold count_yes. induction fdf as [| r fdf IH]; simpl; [reflexivity |].
  rewrite yes_or_not. destruct (not_yes (col r)); simpl; rewrite IH; reflexivity.
Qed.

(** X8. None of the three head-line counts (FIR numbers, arrests made,
    charge sheets filed) exceeds Total Cases; every row is either counted as
    an arrest or passes the flag test of the unarrested view, never both,
    and the same holds for charge sheets and the due-soon view; a null flag
    is on the not-yes side. *)
Theorem headline_counts F py_float isnan (fdf : DataFrame) :
  let d := dashboard F py_float isnan fdf in
  (fir_numbers F d <= total_cases d)%nat /\
  (arrests_made F d <= total_cases d)%nat /\
  (chargesheets_filed F d <= total_cases d)%nat /\
  (arrests_made F d +
     List.length (List.filter (fun r => not_yes (accused_arrested r)) fdf)
   = total_cases d)%nat /\
  (chargesheets_filed F d +
     List.length (List.filter (fun r => not_yes (chargesheet_filed r)) fdf)
   = total_cases d)%nat /\
  not_yes None = true.
Proof.
  simpl. rewrite !count_yes_rows.
  split; [| split; [| split; [| split; [| split]]]].
  - unfold count_notnull. rewrite <- (length_map fir_number fdf).
    apply filter_length_le.
  - apply filter_length_le.
  - apply filter_length_le.
  - rewrite <- (filter_split_length (fun r => not_yes (accused_arrested r)) fdf).
    lia.
  - rewrite <- (filter_split_length (fun r => not_yes (chargesheet_filed r)) fdf).
    lia.
  - reflexivity.
Qed.

(** ** Lags *)

Lemma count_notnull_zero {A} (col : list (option A)) :
  count_notnull col = 0%nat <-> forall v, In v col -> v = None.
Proof.
  unfold count_notnull. induction col as [| [x |] col IH]; simpl.
  - split; [intros _ v [] | reflexivity].
  - split; [discriminate |]. intros H. specialize (H (Some x) (or_introl eq_refl)).
    discriminate.
  - rewrite IH. split.
    + intros H v [<- | Hin]; auto.
    + intros H v Hin. apply H. right. exact Hin.
Qed.

(** X9. The FIR-to-arrest mean is undefined (NaN) exactly when no row has
    both a report date and an arrest date, the empty frame included; it is
    never a division error. *)
Theorem avg_fir_arrest_undefined (fdf : DataFrame) :
  (avg_fir_arrest fdf = None <->
     forall r, In r fdf -> date_reported r = None \/ arrest_date r = None) /\
  avg_fir_arrest [] = None.
Proof.
  split; [| reflexivity].
  unfold avg_fir_arrest, mean.
  destruct (Nat.eqb (count_notnull (map fir_to_arrest fdf)) 0) eqn:E.
  - apply Nat.eqb_eq in E. rewrite count_notnull_zero in E.
    split; [| reflexivity]. intros _ r Hin.
    specialize (E (fir_to_arrest r) (in_map fir_to_arrest fdf r Hin)).
    unfold fir_to_arrest, ts_sub in E.
    destruct (arrest_date r), (date_reported r); auto. discriminate.
  - apply Nat.eqb_neq in E. split; [discriminate |]. intros H. exfalso.
    apply E. apply count_notnull_zero. intros v Hin.
    apply in_map_iff in Hin. destruct Hin as (r & <- & Hin).
    unfold fir_to_arrest, ts_sub.
    destruct (H r Hin) as [-> | ->]; [destruct (arrest_date r) |]; reflexivity.
Qed.

Lemma fir_to_arrest_col_range (fdf : DataFrame) :
  is_Some (fir_to_arrest_col fdf) <-> lags_in_range fdf.
Proof.
  unfold fir_to_arrest_col, lags_in_range.
  destruct (col_ok (map (fun r => ts_sub (arrest_date r) (date_reported r)) fdf))
    eqn:E.
  - split; [intros _ | eauto]. intros r a t Hin Ha Ht.
    pose proof (proj1 (col_ok_spec _ _) E r Hin) as H.
    cbv beta in H. rewrite Ha, Ht in H. apply int64_ok_spec in H. exact H.
  - split; [intros [v H]; discriminate |]. intros Hr. exfalso.
    rewrite <- not_true_iff_false in E. apply E. apply col_ok_spec.
    intros r Hin.
    destruct (arrest_date r) as [a |] eqn:Ea, (date_reported r) as [t |] eqn:Et;
      simpl; try reflexivity.
    apply int64_ok_spec. apply (Hr r a t Hin Ea Et).
Qed.

(** X10. The FIR-to-arrest column is produced iff no arrest is further
    from its report than a nanosecond count can tell; otherwise the
    subtraction raises.  When it is produced, a row's lag is defined iff
    both of its dates are, it is the number of whole days between them
    rounded down (so negative as soon as the arrest is stamped before the
    report), and between two plain dates it is the difference of the day
    numbers. *)
Theorem fir_to_arrest_days (fdf : DataFrame) (r : CrimeRecord) :
  (is_Some (fir_to_arrest_col fdf) <-> lags_in_range fdf) /\
  (forall lags, fir_to_arrest_col fdf = Some lags ->
     lags = map fir_to_arrest fdf /\
     (In r fdf ->
      (forall n, fir_to_arrest r = Some n <->
         exists a t, arrest_date r = Some a /\ date_reported r = Some t /\
                     n * NS_PER_DAY <= a - t < (n + 1) * NS_PER_DAY) /\
      (forall y1 m1 d1 y2 m2 d2,
         date_reported r = Some (to_datetime y1 m1 d1) ->
         arrest_date r = Some (to_datetime y2 m2 d2) ->
         fir_to_arrest r =
           Some (days_from_civil y2 m2 d2 - days_from_civil y1 m1 d1)))).
Proof.
  split; [apply fir_to_arrest_col_range |].
  intros lags Hl. split.
  { unfold fir_to_arrest_col in Hl. destruct (col_ok _); [| discriminate].
    inversion Hl. reflexivity. }
  intros Hin. unfold fir_to_arrest, ts_sub, dt_days, td_days. split.
  - intros n.
    destruct (arrest_date r) as [a |], (date_reported r) as [t |]; simpl.
    + unfold NS_PER_DAY. split.
      * intros H. inversion H. exists a, t. repeat split; auto;
          Z.div_mod_to_equations; lia.
      * intros (a' & t' & Ea & Et & H). inversion Ea; inversion Et; subst.
        f_equal. Z.div_mod_to_equations. lia.
    + split; [discriminate | intros (a' & t' & _ & E & _); discriminate].
    + split; [discriminate | intros (a' & t' & E & _); discriminate].
    + split; [discriminate | intros (a' & t' & E & _); discriminate].
  - intros y1 m1 d1 y2 m2 d2 -> ->. simpl. unfold to_datetime. f_equal.
    rewrite <- Z.mul_sub_distr_r. apply Z.div_mul. discriminate.
Qed.

(** ** Count tables *)

Lemma table_total_bump (k : string) (m : gmap string nat) :
  table_total (bump k m) = S (table_total m).
Proof.
  unfold table_total, bump.
  assert (Hc : forall (m' : gmap string nat) (j1 j2 : string) (z1 z2 y : nat),
             j1 <> j2 -> m' !! j1 = Some z1 -> m' !! j2 = Some z2 ->
             (z1 + (z2 + y) = z2 + (z1 + y))%nat) by (intros; lia).
  destruct (m !! k) as [n |] eqn:E; simpl.
  - rewrite <- insert_delete_eq.
    rewrite map_fold_insert_L; [| apply Hc | apply lookup_delete_eq].
    rewrite (map_fold_delete_L _ _ k n m); [lia | apply Hc | exact E].
  - rewrite map_fold_insert_L; [reflexivity | apply Hc | exact E].
Qed.

Lemma value_counts_total (col : list (option string)) :
  table_total (value_counts col) = count_notnull col.
Proof.
  unfold count_notnull. induction col as [| [k |] col IH].
  - reflexivity.
  - change (value_counts (Some k :: col)) with (bump k (value_counts col)).
    rewrite table_total_bump, IH. reflexivity.
  - exact IH.
Qed.

Lemma occ_positive (k : string) (col : list (option string)) :
  (1 <= occ k col)%nat <-> In (Some k) col.
Proof.
  unfold occ. induction col as [| [x |] col IH]; simpl.
  - split; [lia | tauto].
  - destruct (String.eqb_spec x k) as [-> | Hne]; simpl.
    + split; [auto | lia].
    + rewrite IH. split; [auto |]. intros [H | H]; [congruence | exact H].
  - rewrite IH. split; [auto |]. intros [H | H]; [discriminate | exact H].
Qed.

Lemma value_counts_has_row (col : CrimeRecord -> option string)
    (fdf : DataFrame) (k : string) :
  is_Some (value_counts (map col fdf) !! k) <->
  exists r, In r fdf /\ col r = Some k.
Proof.
  rewrite value_counts_lookup.
  destruct (Nat.eqb (occ k (map col fdf)) 0) eqn:E.
  - apply Nat.eqb_eq in E. split.
    + intros [n H]. discriminate.
    + intros (r & Hin & Hk). exfalso.
      assert (1 <= occ k (map col fdf))%nat.
      { apply occ_positive. rewrite <- Hk. apply in_map. exact Hin. }
      lia.
  - apply Nat.eqb_neq in E. split.
    + intros _. assert (H : In (Some k) (map col fdf))
        by (apply occ_positive; lia).
      apply in_map_iff in H. destruct H as (r & H1 & H2). eauto.
    + intros _. eexists. reflexivity.
Qed.

(** X11. In a category count table (crime type, station, status, season)
    a value has a row iff some record carries it; the count of the row is
    the number of records with that value and is at least 1; a null cell
    adds to no row, and the counts add up to the number of non-null cells. *)
Theorem category_table_rows (col : CrimeRecord -> option string) (fdf : DataFrame) :
  (forall k, is_Some (value_counts (map col fdf) !! k) <->
             exists r, In r fdf /\ col r = Some k) /\
  (forall k n, value_counts (map col fdf) !! k = Some n ->
               n = occ k (map col fdf) /\ (1 <= n)%nat) /\
  table_total (value_counts (map col fdf)) = count_notnull (map col fdf).
Proof.
  split; [| split].
  - intros k. apply value_counts_has_row.
  - intros k n. rewrite value_counts_lookup.
    destruct (Nat.eqb (occ k (map col fdf)) 0) eqn:E; [discriminate |].
    apply Nat.eqb_neq in E. intros H. inversion H. lia.
  - apply value_counts_total.
Qed.

Lemma count_notnull_all {A} (col : CrimeRecord -> option A) (fdf : DataFrame) :
  (forall r, In r fdf -> col r <> None) ->
  count_notnull (map col fdf) = List.length fdf.
Proof.
  unfold count_notnull. induction fdf as [| r fdf IH]; simpl; [reflexivity |].
  intros H. destruct (col r) eqn:E.
  - simpl. rewrite IH; [reflexivity |]. intros r' Hin. apply H. right. exact Hin.
  - exfalso. apply (H r); [left; reflexivity | exact E].
Qed.

Lemma count_notnull_le {A} (col : list (option A)) :
  (count_notnull col <= List.length col)%nat.
Proof. apply filter_length_le. Qed.

Lemma filtered_row_complete (df : DataFrame) (sb : Sidebar) (r : CrimeRecord) :
  In r (filtered_df df sb) ->
  date_reported r <> None /\ police_station r <> None /\ crime_type r <> None.
Proof.
  intros Hin. apply filter_In in Hin. destruct Hin as [_ Hm].
  apply filter_mask_true in Hm. destruct Hm as (Hd & Hs & Hc).
  apply date_mask_true in Hd. destruct Hd as (t & Ht & _).
  apply isin_Some in Hs. destruct Hs as (p & Hp).
  apply isin_Some in Hc. destruct Hc as (c & Hc).
  rewrite Ht, Hp, Hc. repeat split; discriminate.
Qed.

Lemma season_of_dated (r : CrimeRecord) :
  date_reported r <> None -> season r <> None.
Proof.
  unfold season, month. destruct (date_reported r) as [t |]; [| contradiction].
  intros _. simpl. rewrite season_map_lookup.
  destruct (spec_season_total (month_of t) (month_of_range t)) as (s & Hs & _).
  rewrite Hs. discriminate.
Qed.

Lemma season_in_five (r : CrimeRecord) (s : string) :
  season r = Some s -> In s five_seasons.
Proof.
  unfold season, month. destruct (date_reported r) as [t |]; [| discriminate].
  simpl. rewrite season_map_lookup. intros Hs.
  destruct (spec_season_total (month_of t) (month_of_range t)) as (s' & Hs' & Hin).
  rewrite Hs' in Hs. inversion Hs; subst. exact Hin.
Qed.

(** X12. On the filtered frame the bars of the crime-type chart add up to
    Total Cases, and so do the bars of the station chart and of the season
    chart; the slices of the status pie add up to at most Total Cases; the
    season chart has no bar other than the five seasons. *)
Theorem chart_totals F py_float isnan (df : DataFrame) (sb : Sidebar) :
  let d := dashboard F py_float isnan (filtered_df df sb) in
  table_total (c_crime_type d) = total_cases d /\
  table_total (c_police_station d) = total_cases d /\
  table_total (c_season d) = total_cases d /\
  (table_total (c_status d) <= total_cases d)%nat /\
  (forall s, is_Some (c_season d !! s) -> In s five_seasons).
Proof.
  simpl. unfold crime_type_counts, ps_counts, season_counts, status_counts.
  rewrite !value_counts_total.
  pose proof (filtered_row_complete df sb) as Hc.
  split; [| split; [| split; [| split]]].
  - apply count_notnull_all. intros r Hin. apply (Hc r Hin).
  - apply count_notnull_all. intros r Hin. apply (Hc r Hin).
  - apply count_notnull_all. intros r Hin. apply season_of_dated, (Hc r Hin).
  - rewrite <- (length_map status (filtered_df df sb)). apply count_notnull_le.
  - intros s Hs.
    apply (value_counts_has_row season (filtered_df df sb) s) in Hs.
    destruct Hs as (r & _ & Hr). exact (season_in_five r s Hr).
Qed.

(** ** The monthly trend table *)

Lemma key_eqb_eq (a b : GroupKey) : key_eqb a b = true <-> a = b.
Proof.
  destruct a as [a1 a2], b as [b1 b2]. unfold key_eqb. simpl.
  rewrite andb_true_iff, !String.eqb_eq. split.
  - intros [-> ->]. reflexivity.
  - intros H. inversion H. auto.
Qed.

Lemma tbl_count_cons (k k' : GroupKey) (n : nat) (tbl : list (GroupKey * nat)) :
  tbl_count k ((k', n) :: tbl) =
  if key_eqb k' k then (n + tbl_count k tbl)%nat else tbl_count k tbl.
Proof. reflexivity. Qed.

Lemma group_total_cons (kn : GroupKey * nat) (tbl : list (GroupKey * nat)) :
  group_total (kn :: tbl) = (snd kn + group_total tbl)%nat.
Proof. reflexivity. Qed.

Lemma tbl_count_count_key (k k0 : GroupKey) (tbl : list (GroupKey * nat)) :
  tbl_count k (count_key k0 tbl) =
  (tbl_count k tbl + (if key_eqb k0 k then 1 else 0))%nat.
Proof.
  induction tbl as [| [k' n] tbl IH].
  - simpl. destruct (key_eqb k0 k); reflexivity.
  - cbn [count_key]. destruct (key_compare k0 k') eqn:E.
    + apply key_compare_Eq in E. subst k'. rewrite !tbl_count_cons.
      destruct (key_eqb k0 k); lia.
    + rewrite !tbl_count_cons. destruct (key_eqb k0 k), (key_eqb k' k); lia.
    + rewrite !tbl_count_cons, IH.
      destruct (key_eqb k0 k), (key_eqb k' k); lia.
Qed.

Lemma group_total_count_key (k : GroupKey) (tbl : list (GroupKey * nat)) :
  group_total (count_key k tbl) = S (group_total tbl).
Proof.
  induction tbl as [| [k' n] tbl IH]; [reflexivity |].
  cbn [count_key]. destruct (key_compare k k');
    rewrite !group_total_cons; [simpl; lia | simpl; lia |].
  rewrite IH. simpl. lia.
Qed.

Lemma count_key_positive (k : GroupKey) (tbl : list (GroupKey * nat)) :
  List.Forall (fun kn => (1 <= snd kn)%nat) tbl ->
  List.Forall (fun kn => (1 <= snd kn)%nat) (count_key k tbl).
Proof.
  induction tbl as [| [k' n] tbl IH]; simpl; intros H.
  - constructor; [simpl; lia | constructor].
  - inversion H as [| ? ? H1 H2]; subst.
    destruct (key_compare k k'); constructor; simpl in *; auto; lia.
Qed.

Lemma groupby_size_positive (ks : list (option GroupKey)) :
  List.Forall (fun kn => (1 <= snd kn)%nat) (groupby_size ks).
Proof.
  induction ks as [| [k |] ks IH]; simpl.
  - constructor.
  - apply count_key_positive. exact IH.
  - exact IH.
Qed.

Lemma ssorted_nodup (l : list GroupKey) :
  StronglySorted key_lt l -> List.NoDup l.
Proof.
  induction 1 as [| a l Hs IH Hall]; constructor; [| exact IH].
  intros Hin. rewrite List.Forall_forall in Hall.
  exact (key_lt_irrefl a (Hall a Hin)).
Qed.

Lemma tbl_count_absent (k : GroupKey) (tbl : list (GroupKey * nat)) :
  ~ In k (keys tbl) -> tbl_count k tbl = 0%nat.
Proof.
  induction tbl as [| [k' n] tbl IH]; [reflexivity |]. intros H.
  rewrite tbl_count_cons. simpl in H.
  destruct (key_eqb k' k) eqn:E.
  - apply key_eqb_eq in E. tauto.
  - apply IH. tauto.
Qed.

Lemma tbl_count_present (k : GroupKey) (n : nat) (tbl : list (GroupKey * nat)) :
  List.NoDup (keys tbl) -> In (k, n) tbl -> tbl_count k tbl = n.
Proof.
  induction tbl as [| [k' n'] tbl IH]; [simpl; tauto |].
  rewrite tbl_count_cons. simpl.
  intros Hnd [Heq | Hin]; inversion Hnd as [| ? ? Hnot Hnd']; subst.
  - inversion Heq; subst.
    replace (key_eqb k k) with true by (symmetry; apply key_eqb_eq; reflexivity).
    rewrite (tbl_count_absent k tbl Hnot). lia.
  - destruct (key_eqb k' k) eqn:E.
    + apply key_eqb_eq in E. subst k'. exfalso. apply Hnot.
      apply (in_map fst) in Hin. exact Hin.
    + apply IH; assumption.
Qed.

Lemma tbl_count_row (k : GroupKey) (tbl : list (GroupKey * nat)) :
  (1 <= tbl_count k tbl)%nat -> exists n, In (k, n) tbl.
Proof.
  induction tbl as [| [k' n'] tbl IH]; [simpl; lia |].
  rewrite tbl_count_cons. simpl.
  destruct (key_eqb k' k) eqn:E.
  - apply key_eqb_eq in E. subst k'. intros _. exists n'. left. reflexivity.
  - intros H. destruct (IH H) as [n Hn]. exists n. right. exact Hn.
Qed.

Lemma monthly_count_is_rows (k : GroupKey) (fdf : DataFrame) :
  tbl_count k (monthly_counts fdf) = rows_in_group k fdf.
Proof.
  unfold monthly_counts, rows_in_group.
  induction fdf as [| r fdf IH]; simpl; [reflexivity |].
  destruct (trend_key r) as [k' |]; [| exact IH].
  rewrite tbl_count_count_key, IH.
  destruct (key_eqb k' k); simpl; lia.
Qed.

(** X13. In the monthly trend table every (month, crime type) group is
    listed once; a pair [(k, n)] is a row iff [n] is the number of rows of
    the frame in group [k] and is at least 1, so a month without cases of a
    crime type is absent rather than listed with 0; the counts add up to the
    number of rows with a crime type. *)
Theorem monthly_table_rows (fdf : DataFrame) :
  List.NoDup (keys (monthly_counts fdf)) /\
  (forall k n, In (k, n) (monthly_counts fdf) <->
               n = rows_in_group k fdf /\ (1 <= n)%nat) /\
  group_total (monthly_counts fdf) = count_notnull (map trend_key fdf).
Proof.
  assert (Hnd : List.NoDup (keys (monthly_counts fdf))).
  { apply ssorted_nodup. apply groupby_size_sorted. }
  split; [exact Hnd |]. split.
  - intros k n. split.
    + intros Hin. split.
      * rewrite <- monthly_count_is_rows. symmetry.
        apply tbl_count_present; assumption.
      * pose proof (groupby_size_positive (map trend_key fdf)) as Hp.
        rewrite List.Forall_forall in Hp. exact (Hp (k, n) Hin).
    + intros [-> Hn]. rewrite <- monthly_count_is_rows in Hn |- *.
      destruct (tbl_count_row k _ Hn) as [n' Hn'].
      rewrite (tbl_count_present k n' _ Hnd Hn'). exact Hn'.
  - unfold monthly_counts, count_notnull.
    induction (map trend_key fdf) as [| [k |] ks IH]; simpl.
    + reflexivity.
    + rewrite group_total_count_key, IH. reflexivity.
    + exact IH.
Qed.

(** ** Markers *)

Lemma split_comma_nonempty (s : string) : split_comma s <> [].
Proof.
  destruct s as [| c s]; simpl; [discriminate |].
  destruct (Ascii.eqb c ","); [discriminate |].
  destruct (split_comma s); discriminate.
Qed.

Lemma split_comma_length (s : string) :
  List.length (split_comma s) = S (count_commas s).
Proof.
  induction s as [| c s IH]; simpl; [reflexivity |]. unfold is_comma.
  destruct (Ascii.eqb c ","); simpl; [rewrite IH; reflexivity |].
  destruct (split_comma s) eqn:E; [exfalso; exact (split_comma_nonempty s E) |].
  exact IH.
Qed.

Lemma split_comma_plain (a : string) :
  count_commas a = 0%nat -> split_comma a = [a].
Proof.
  induction a as [| c a IH]; simpl; [reflexivity |]. unfold is_comma.
  destruct (Ascii.eqb c ","); simpl; [discriminate |].
  intros H. rewrite (IH H). reflexivity.
Qed.

Lemma split_comma_app (a b : string) :
  count_commas a = 0%nat ->
  split_comma (a ++ String "," b) = a :: split_comma b.
Proof.
  induction a as [| c a IH]; simpl; [reflexivity |]. unfold is_comma.
  destruct (Ascii.eqb c ","); simpl; [discriminate |].
  intros H. rewrite (IH H). reflexivity.
Qed.

Lemma split_comma_two (s a b : string) :
  split_comma s = [a; b] ->
  s = (a ++ String "," b)%string /\
  count_commas a = 0%nat /\ count_commas b = 0%nat.
Proof.
  revert a. induction s as [| c s IH]; intros a; simpl; [discriminate |].
  unfold is_comma.
  destruct (Ascii.eqb_spec c ",") as [-> | Hne].
  - intros H. injection H as Ha Hs'. subst a.
    pose proof (split_comma_length s) as Hl. rewrite Hs' in Hl. simpl in Hl.
    assert (Hc : count_commas s = 0%nat) by lia.
    rewrite (split_comma_plain s Hc) in Hs'. inversion Hs'; subst b.
    simpl. auto.
  - destruct (split_comma s) as [| h t] eqn:E;
      [exfalso; exact (split_comma_nonempty s E) |].
    intros H. inversion H; subst.
    destruct (IH h eq_refl) as (Hs & Ha & Hb).
    rewrite Hs. simpl. unfold is_comma.
    destruct (Ascii.eqb_spec c ","); [contradiction |]. auto.
Qed.

(** X14. A location text gives a position iff it is one comma between two
    comma-free pieces that both read as numbers, the first being the
    latitude and the second the longitude; in particular it has exactly one
    comma. *)
Theorem parse_location_spec (F : Type) (py_float : string -> option F)
    (s : string) (lat lon : F) :
  (parse_location F py_float s = Some (lat, lon) <->
     exists a b, s = (a ++ String "," b)%string /\
                 count_commas a = 0%nat /\ count_commas b = 0%nat /\
                 py_float a = Some lat /\ py_float b = Some lon) /\
  (count_commas s <> 1%nat -> parse_location F py_float s = None).
Proof.
  unfold parse_location. split.
  - split.
    + destruct (split_comma s) as [| a [| b [| c t]]] eqn:E; try discriminate.
      destruct (py_float a) as [x |] eqn:Ea; [| discriminate].
      destruct (py_float b) as [y |] eqn:Eb; [| discriminate].
      intros H. inversion H; subst.
      destruct (split_comma_two s a b E) as (Hs & Ha & Hb).
      exists a, b. auto.
    + intros (a & b & -> & Ha & Hb & Hlat & Hlon).
      rewrite (split_comma_app a b Ha), (split_comma_plain b Hb).
      rewrite Hlat, Hlon. reflexivity.
  - intros Hn. pose proof (split_comma_length s) as Hl.
    destruct (split_comma s) as [| a [| b [| c t]]]; try reflexivity.
    simpl in Hl. exfalso. apply Hn. lia.
Qed.

Lemma marker_of_cases F py_float isnan (r : CrimeRecord) :
  (has_marker F py_float isnan r = false /\ marker_of F py_float isnan r = []) \/
  (has_marker F py_float isnan r = true /\
   exists m, marker_of F py_float isnan r = [m] /\
             mk_fir F m = fir_number r /\ mk_crime F m = crime_type r /\
             Some (mk_location F m) = location r /\
             mk_date F m = option_map ts_day (date_reported r) /\
             mk_color F m =
               default "gray"%string
                 (match crime_type r with
                  | Some c => color_map !! c
                  | None => None
                  end)).
Proof.
  unfold has_marker, marker_of, try_marker.
  destruct (location r) as [s |]; [| left; auto].
  destruct (parse_location F py_float s) as [[lat lon] |]; [| left; auto].
  destruct (isnan lat || isnan lon); [left; auto |].
  right. split; [reflexivity |]. eexists. split; [reflexivity |].
  simpl. auto.
Qed.

(** X15. The loop adds one marker for each row whose location reads as two
    numbers that are not NaN, and none for any other row; the markers come
    in row order and carry the FIR number, crime type and location text of
    their rows. *)
Theorem markers_follow_rows F py_float isnan (fdf : DataFrame) :
  let located := List.filter (has_marker F py_float isnan) fdf in
  let cluster := marker_cluster F py_float isnan fdf in
  map (mk_fir F) cluster = map fir_number located /\
  map (mk_crime F) cluster = map crime_type located /\
  map (fun m => Some (mk_location F m)) cluster = map location located /\
  List.length cluster = List.length located /\
  (List.length cluster <= List.length fdf)%nat.
Proof.
  simpl.
  assert (H : map (mk_fir F) (marker_cluster F py_float isnan fdf)
              = map fir_number (List.filter (has_marker F py_float isnan) fdf) /\
              map (mk_crime F) (marker_cluster F py_float isnan fdf)
              = map crime_type (List.filter (has_marker F py_float isnan) fdf) /\
              map (fun m => Some (mk_location F m)) (marker_cluster F py_float isnan fdf)
              = map location (List.filter (has_marker F py_float isnan) fdf)).
  { unfold marker_cluster. induction fdf as [| r fdf (IH1 & IH2 & IH3)];
      [simpl; auto |].
    cbn [flat_map List.filter].
    destruct (marker_of_cases F py_float isnan r)
      as [[Hh Hm] | [Hh (m & Hm & Hf & Hc & Hl & _)]]; rewrite Hh, Hm; simpl.
    - auto.
    - rewrite IH1, IH2, IH3, Hf, Hc, Hl. auto. }
  destruct H as (H1 & H2 & H3). repeat split; auto.
  - rewrite <- (length_map (mk_fir F)), H1, length_map. reflexivity.
  - rewrite <- (length_map (mk_fir F)), H1, length_map. apply filter_length_le.
Qed.

Lemma color_map_legend (c : string) :
  In c legend_crimes ->
  exists col, color_map !! c = Some col /\ In col legend_colors.
Proof.
  unfold legend_crimes. simpl. intros H.
  repeat (destruct H as [<- | H];
          [eexists; split; [vm_compute; reflexivity | simpl; tauto] |]).
  destruct H.
Qed.

Lemma color_map_other (c : string) :
  ~ In c legend_crimes -> color_map !! c = None.
Proof.
  intros H. apply not_elem_of_list_to_map_1. rewrite list_elem_of_In.
  exact H.
Qed.

Lemma marker_cluster_in F py_float isnan (fdf : DataFrame) m :
  In m (marker_cluster F py_float isnan fdf) ->
  exists r, In r fdf /\ marker_of F py_float isnan r = [m].
Proof.
  unfold marker_cluster. rewrite in_flat_map. intros (r & Hin & Hm).
  exists r. split; [exact Hin |].
  destruct (marker_of_cases F py_float isnan r) as [[_ E] | [_ (m' & E & _)]];
    rewrite E in Hm; simpl in Hm; [contradiction |].
  destruct Hm as [-> | []]. exact E.
Qed.

(** X16. A marker is drawn in the colour the colour table gives to its
    crime type when that is one of Theft, Murder, Assault, Drugs, Cybercrime
    and Other; for every other crime type, and for a null one, it is gray, a
    colour that is not in the table. *)
Theorem marker_colors F py_float isnan (fdf : DataFrame) m :
  In m (marker_cluster F py_float isnan fdf) ->
  (forall c, mk_crime F m = Some c -> In c legend_crimes ->
             color_map !! c = Some (mk_color F m) /\
             In (mk_color F m) legend_colors) /\
  (forall c, mk_crime F m = Some c -> ~ In c legend_crimes ->
             mk_color F m = "gray"%string) /\
  (mk_crime F m = None -> mk_color F m = "gray"%string) /\
  ~ In "gray"%string legend_colors.
Proof.
  intros Hin. destruct (marker_cluster_in F py_float isnan fdf m Hin) as (r & _ & Hm).
  destruct (marker_of_cases F py_float isnan r)
    as [[_ E] | [_ (m' & E & _ & Hc & _ & _ & Hcol)]];
    rewrite E in Hm; [discriminate |].
  inversion Hm; subst m'. rewrite <- Hc in Hcol.
  split; [| split; [| split]].
  - intros c Ec Hl. rewrite Ec in Hcol.
    destruct (color_map_legend c Hl) as (col & E1 & E2).
    rewrite E1 in Hcol. simpl in Hcol. rewrite Hcol. auto.
  - intros c Ec Hl. rewrite Ec, (color_map_other c Hl) in Hcol. exact Hcol.
  - intros Ec. rewrite Ec in Hcol. exact Hcol.
  - simpl. intros H. repeat (destruct H as [H | H]; [discriminate |]). exact H.
Qed.

(** ** Narrowing the filter *)

Lemma filter_absorb {A} (f g : A -> bool) (l : list A) :
  (forall x, g x = true -> f x = true) ->
  List.filter g (List.filter f l) = List.filter g l.
Proof.
  intros H. induction l as [| x l IH]; simpl; [reflexivity |].
  destruct (f x) eqn:Ef; simpl.
  - rewrite IH. reflexivity.
  - destruct (g x) eqn:Eg; [| exact IH]. rewrite (H x Eg) in Ef. discriminate.
Qed.

Lemma isin_incl (v : option string) (l1 l2 : list string) :
  incl l2 l1 -> isin v l2 = true -> isin v l1 = true.
Proof.
  intros Hi. destruct v as [s |]; simpl; [| auto].
  rewrite !mem_str. apply Hi.
Qed.

(** X17. Filtering an already filtered frame with criteria that are
    narrower (date range inside, stations and crime types among those
    selected before) gives what filtering the whole data with the narrower
    criteria gives. *)
Theorem filter_narrowing (df : DataFrame) (sb1 sb2 : Sidebar) :
  narrower sb2 sb1 ->
  filtered_df (filtered_df df sb1) sb2 = filtered_df df sb2.
Proof.
  intros (Hlo & Hhi & Hs & Hc). unfold filtered_df. apply filter_absorb.
  intros r. rewrite !filter_mask_true, !date_mask_true.
  intros ((t & Ht & Hr) & H1 & H2). split; [| split].
  - exists t. split; [exact Ht | lia].
  - exact (isin_incl _ _ _ Hs H1).
  - exact (isin_incl _ _ _ Hc H2).
Qed.

(** ** Order inside a month, and the last day of the range *)

(** X18. Within one month the groups of the trend table come in the
    code-point order of their crime types. *)
Theorem monthly_same_month_order
    (fdf : DataFrame) (r1 r2 : CrimeRecord) (c1 c2 : string) :
  In r1 fdf -> In r2 fdf ->
  month_year r1 = month_year r2 ->
  crime_type r1 = Some c1 -> crime_type r2 = Some c2 ->
  String_as_OT.lt c1 c2 ->
  precedes (month_year r1, c1) (month_year r2, c2) (keys (monthly_counts fdf)).
Proof.
  intros Hin1 Hin2 Hm Hc1 Hc2 Hlt.
  apply sorted_precedes.
  - apply groupby_size_sorted.
  - apply trend_key_in; assumption.
  - apply trend_key_in; assumption.
  - apply key_lt_iff. right. simpl. auto.
Qed.

(** X19. A record stamped later than midnight on the last day of the
    selected date range fails the filter: the upper bound is the midnight
    that starts that day. *)
Theorem last_day_after_midnight_excluded
    (sb : Sidebar) (r : CrimeRecord) (t : Timestamp) :
  date_reported r = Some t ->
  pd_to_datetime (snd (date_range sb)) = floor_day t ->
  floor_day t <> t ->
  filter_mask sb r = false /\ forall df, ~ In r (filtered_df df sb).
Proof.
  intros Ht Hend Hne.
  assert (Hm : filter_mask sb r = false).
  { unfold filter_mask, date_mask. rewrite Ht, Hend. simpl.
    pose proof (floor_day_le t).
    replace (t <=? floor_day t) with false by (symmetry; apply Z.leb_gt; lia).
    rewrite andb_false_r. reflexivity. }
  split; [exact Hm |]. intros df Hin. apply filter_In in Hin.
  rewrite Hm in Hin. destruct Hin; discriminate.
Qed.

(** * Further worked instances *)

Lemma default_view_keeps_witness :
  let first := row_at (Some (to_datetime 2024 1 1)) "Theft" None None in
  let last := row_at (Some (datetime 2024 3 1 9 30)) "Theft" None None in
  let sb := {| date_range := ({| d_year := 2024; d_month := 1; d_day := 1 |},
                              {| d_year := 2024; d_month := 3; d_day := 1 |});
               selected_stations := ["Kotwali"%string];
               selected_crimes := ["Theft"%string];
               search_fir := EmptyString;
               show_due := false; show_unarrested := false |} in
  default_sidebar [first; last] = Some sb /\
  In first [first; last] /\
  filter_mask sb first = true /\
  filter_mask sb last = false.
Proof.
  intros first last sb.
  assert (E : default_sidebar [first; last] = Some sb) by (vm_compute; reflexivity).
  destruct (default_view_keeps [first; last] sb first E (or_introl eq_refl))
    as [H _].
  split; [exact E |]. split; [left; reflexivity |]. split.
  - apply H. exists (to_datetime 2024 1 1), (datetime 2024 3 1 9 30).
    split; [reflexivity |]. split; [vm_compute; reflexivity |].
    split; [vm_compute; discriminate |]. split; discriminate.
  - vm_compute. reflexivity.
Defined.

Lemma search_finds_fir_substring_witness :
  literal_pattern "fir/2" = true /\ ascii_text "fir/2" /\
  fir_number bad_loc_row = Some "FIR/21"%string /\ ascii_text "FIR/21" /\
  In bad_loc_row (search_result [bad_loc_row; null_fir_row] "fir/2") /\
  search_result [bad_loc_row; null_fir_row] (lower "FIR/2")
    = search_result [bad_loc_row; null_fir_row] "FIR/2".
Proof.
  destruct (search_finds_fir_substring [bad_loc_row; null_fir_row] "fir/2"
              bad_loc_row "FIR/21" eq_refl eq_refl eq_refl eq_refl) as (H1 & _).
  destruct (search_finds_fir_substring [bad_loc_row; null_fir_row] "FIR/2"
              bad_loc_row "FIR/21" eq_refl eq_refl eq_refl eq_refl)
    as (_ & _ & H2).
  split; [reflexivity |]. split; [reflexivity |].
  split; [reflexivity |]. split; [reflexivity |]. split; [| exact H2].
  apply H1. split; [left; reflexivity |].
  exists EmptyString, "1"%string. reflexivity.
Defined.

Lemma search_text_overrides_sidebar_witness :
  let sb1 := {| date_range := date_range sidebar_2024;
                selected_stations := ["Kotwali"%string];
                selected_crimes := ["Theft"%string];
                search_fir := "21"; show_due := true;
                show_unarrested := false |} in
  let sb2 := {| date_range := date_range sidebar_2024;
                selected_stations := [];
                selected_crimes := [];
                search_fir := "21"; show_due := false;
                show_unarrested := true |} in
  literal_pattern (search_fir sb1) = true /\
  ascii_text (search_fir sb1) /\
  ascii_firs [bad_loc_row; null_fir_row] /\
  search_fir sb1 <> EmptyString /\
  page Z int_literal (fun _ => false) [bad_loc_row; null_fir_row] sb1
       (to_datetime 2024 2 1)
  = page Z int_literal (fun _ => false) [bad_loc_row; null_fir_row] sb2
       (to_datetime 2025 2 1).
Proof.
  intros sb1 sb2.
  assert (Hq : search_fir sb1 <> EmptyString) by discriminate.
  assert (Hf : ascii_firs [bad_loc_row; null_fir_row]).
  { intros r fir [<- | [<- | []]] E; inversion E. reflexivity. }
  split; [reflexivity |]. split; [reflexivity |]. split; [exact Hf |].
  split; [exact Hq |].
  exact (proj1 (search_text_overrides_sidebar Z int_literal (fun _ => false)
                  [bad_loc_row; null_fir_row] sb1 sb2
                  (to_datetime 2024 2 1) (to_datetime 2025 2 1)
                  eq_refl eq_refl Hf Hq eq_refl)).
Defined.

Lemma due_soon_window_witness :
  let r := row_at (Some (to_datetime 2024 1 1)) "Theft" None (Some "No"%string) in
  let overdue := row_at (Some (to_datetime 2023 11 1)) "Theft" None (Some "No"%string) in
  let today := to_datetime 2024 2 25 in
  due_soon_view [overdue; r] today = Some [r] /\
  to_datetime 2024 1 1 + 49 * NS_PER_DAY < today <= to_datetime 2024 1 1 + 60 * NS_PER_DAY /\
  In r [r] /\
  (In overdue [r] <-> False).
Proof.
  intros r overdue today.
  assert (Hv : due_soon_view [overdue; r] today = Some [r])
    by (vm_compute; reflexivity).
  assert (Hw : to_datetime 2024 1 1 + 49 * NS_PER_DAY < today
               <= to_datetime 2024 1 1 + 60 * NS_PER_DAY)
    by (split; vm_compute; [reflexivity | discriminate]).
  split; [exact Hv |]. split; [exact Hw |]. split.
  - apply (due_soon_window [overdue; r] [r] today r Hv).
    split; [right; left; reflexivity |]. split; [exact not_yes_No |].
    exists (to_datetime 2024 1 1). split; [reflexivity | exact Hw].
  - split; [| tauto]. intros Hin.
    apply (due_soon_window [overdue; r] [r] today overdue Hv) in Hin.
    destruct Hin as (_ & _ & t & Ht & _ & Hle). inversion Ht; subst t.
    revert Hle. vm_compute. intros H. apply H. reflexivity.
Defined.

Lemma unarrested_threshold_witness :
  let r := row_at (Some (to_datetime 2024 1 1)) "Theft" (Some "No"%string) None in
  let recent := row_at (Some (datetime 2024 1 15 12 0)) "Theft" (Some "No"%string) None in
  let today := datetime 2024 3 1 9 30 in
  unarrested_view [recent; r] today = Some [r] /\
  In r [r] /\
  (In recent [r] <-> False).
Proof.
  intros r recent today.
  assert (Hv : unarrested_view [recent; r] today = Some [r])
    by (vm_compute; reflexivity).
  split; [exact Hv |]. split.
  - apply (unarrested_threshold [recent; r] [r] today r Hv).
    split; [right; left; reflexivity |]. split; [exact not_yes_No |].
    exists (to_datetime 2024 1 1). split; [reflexivity |].
    vm_compute. discriminate.
  - split; [| tauto]. intros Hin.
    apply (unarrested_threshold [recent; r] [r] today recent Hv) in Hin.
    destruct Hin as (_ & _ & t & Ht & Hge). inversion Ht; subst t.
    revert Hge. vm_compute. intros H. apply H. reflexivity.
Defined.

Lemma marker_colors_witness :
  let located := {| case_id := None; fir_number := Some "FIR/7"%string;
                    police_station := Some "Kotwali"%string;
                    crime_type := Some "Theft"%string;
                    date_reported := Some (to_datetime 2024 7 4);
                    arrest_date := None; chargesheet_date := None;
                    accused_arrested := None; chargesheet_filed := None;
                    status := Some "Open"%string;
                    location := Some "19,82"%string |} in
  let m := {| mk_lat := 19; mk_lon := 82;
              mk_fir := Some "FIR/7"%string;
              mk_crime := Some "Theft"%string;
              mk_date := Some (days_from_civil 2024 7 4);
              mk_location := "19,82"%string;
              mk_color := "red"%string |} in
  In m (marker_cluster Z int_literal (fun _ => false) [located; bad_loc_row]) /\
  color_map !! "Theft"%string = Some "red"%string.
Proof.
  intros located m.
  assert (Hin : In m (marker_cluster Z int_literal (fun _ => false)
                        [located; bad_loc_row]))
    by (left; vm_compute; reflexivity).
  split; [exact Hin |].
  destruct (marker_colors Z int_literal (fun _ => false)
              [located; bad_loc_row] m Hin) as (H & _).
  exact (proj1 (H "Theft"%string eq_refl (or_introl eq_refl))).
Defined.

Lemma filter_narrowing_witness :
  let spring := {| date_range := ({| d_year := 2024; d_month := 3; d_day := 1 |},
                                  {| d_year := 2024; d_month := 5; d_day := 31 |});
                   selected_stations := ["Kotwali"%string];
                   selected_crimes := ["Theft"%string];
                   search_fir := EmptyString;
                   show_due := false; show_unarrested := false |} in
  let df := [row_at (Some (to_datetime 2024 1 15)) "Theft" None None;
             row_at (Some (to_datetime 2024 4 2)) "Theft" None None;
             row_at (Some (to_datetime 2025 4 2)) "Theft" None None] in
  narrower spring sidebar_2024 /\
  filtered_df (filtered_df df sidebar_2024) spring = filtered_df df spring.
Proof.
  intros spring df.
  assert (Hn : narrower spring sidebar_2024).
  { split; [vm_compute; discriminate |]. split; [vm_compute; discriminate |].
    split; apply incl_refl. }
  split; [exact Hn |]. exact (filter_narrowing df sidebar_2024 spring Hn).
Defined.

Lemma monthly_same_month_order_witness :
  let theft := row_at (Some (to_datetime 2024 1 5)) "Theft" None None in
  let assault := row_at (Some (to_datetime 2024 1 20)) "Assault" None None in
  String_as_OT.lt "Assault" "Theft" /\
  precedes ("2024-01", "Assault")%string ("2024-01", "Theft")%string
    (keys (monthly_counts [theft; assault])).
Proof.
  intros theft assault.
  assert (Hlt : String_as_OT.lt "Assault" "Theft") by reflexivity.
  split; [exact Hlt |].
  exact (monthly_same_month_order [theft; assault] assault theft
           "Assault" "Theft" (or_intror (or_introl eq_refl))
           (or_introl eq_refl) eq_refl eq_refl eq_refl Hlt).
Defined.

Lemma last_day_after_midnight_excluded_witness :
  let late := row_at (Some (datetime 2024 12 31 14 30)) "Theft" None None in
  floor_day (datetime 2024 12 31 14 30) <> datetime 2024 12 31 14 30 /\
  filter_mask sidebar_2024 late = false.
Proof.
  intros late.
  assert (Hne : floor_day (datetime 2024 12 31 14 30) <> datetime 2024 12 31 14 30)
    by (vm_compute; discriminate).
  split; [exact Hne |].
  assert (Hend : pd_to_datetime (snd (date_range sidebar_2024))
                 = floor_day (datetime 2024 12 31 14 30))
    by (vm_compute; reflexivity).
  exact (proj1 (last_day_after_midnight_excluded sidebar_2024 late
                  (datetime 2024 12 31 14 30) eq_refl Hend Hne)).
Defined.
